(** * weather_app.py: the location and weather pipeline

    A shallow embedding of [weather_app.py]: the three Open-Meteo helper
    functions, the WMO symbol table, the animation rule and the Streamlit
    script that drives them.

    Conventions.
    - A decoded JSON body ([response.json()], the value of [st_folium]) is a
      [json] tree; Python's dynamic checks on it are written out and raise
      the exception Python raises.
    - Python [float] is IEEE binary64, modelled by Rocq's primitive [float].
    - Python [str] is a [string] holding the UTF-8 encoding of the text.
    - The script runs in an [environment] (what each request answers,
      and what pandas makes of a time value that is not an ISO date) and
      threads an [app_state]: the session slot, the Streamlit calls made so
      far and the requests sent so far. *)

From Stdlib Require Import ZArith List String Ascii Bool Lia Floats DecimalString
  DecimalN.
Import ListNotations.
Open Scope string_scope.
Open Scope Z_scope.

(* ------------------------------------------------------------------ *)
(** ** Values and exceptions *)

#[local] Unset Elimination Schemes.
Inductive json : Type :=
| JNull
| JBool (b : bool)
| JInt (n : Z)
| JFloat (f : float)
| JStr (s : string)
| JArr (items : list json)
| JObj (fields : list (string * json)).
#[local] Set Elimination Schemes.

(** The exceptions the script can raise past its [try] blocks.
    [requests.exceptions.RequestException] is not among them: every place
    that can raise it sits in a [try] that catches it (see
    [http_response]). *)
Inductive exn : Type :=
| KeyError (key : json)
| IndexError
| TypeError
| AttributeError
| ValueError
| OverflowError.

Inductive result (A : Type) : Type :=
| Ok (a : A)
| Raise (e : exn).
Arguments Ok {A} a.
Arguments Raise {A} e.

Definition rbind {A B} (r : result A) (k : A -> result B) : result B :=
  match r with
  | Ok a => k a
  | Raise e => Raise e
  end.

(* ------------------------------------------------------------------ *)
(** ** Python operations on decoded JSON *)

Module Py.

(** [d[k]] / [k in d] / [d.get(k, default)] on a dict decoded from JSON:
    the first binding of the key. *)
Fixpoint assoc (k : string) (fields : list (string * json)) : option json :=
  match fields with
  | [] => None
  | (k', v) :: rest => if String.eqb k k' then Some v else assoc k rest
  end.

(** A UTF-8 continuation byte, [10xxxxxx]. *)
Definition is_continuation (c : ascii) : bool :=
  let n := Z.of_nat (nat_of_ascii c) in (128 <=? n) && (n <? 192).

(** The code points of a string, each as the string of its bytes. *)
Fixpoint codepoints (s : string) : list string :=
  match s with
  | EmptyString => []
  | String c rest =>
      match codepoints rest with
      | [] => [String c EmptyString]
      | cp :: cps =>
          match cp with
          | String c' _ =>
              if is_continuation c' then String c cp :: cps
              else String c EmptyString :: cp :: cps
          | EmptyString => String c EmptyString :: cps
          end
      end
  end.

(** [sub in s] on two strings. *)
Fixpoint is_substring (sub s : string) : bool :=
  String.prefix sub s ||
  match s with
  | EmptyString => false
  | String _ rest => is_substring sub rest
  end.

(** The exact integer a float equals, when it equals one
    ([71.0 == 71], and [hash(71.0) == hash(71)]). *)
Definition float_integer (f : float) : option Z :=
  match Prim2SF f with
  | S754_zero _ => Some 0
  | S754_finite sign m e =>
      let mag :=
        if 0 <=? e then Some (Z.pos m * 2 ^ e)
        else if Z.pos m mod 2 ^ (- e) =? 0 then Some (Z.pos m / 2 ^ (- e))
        else None in
      option_map (fun v => if sign then - v else v) mag
  | _ => None
  end.

(** [x == n] for an int literal [n]. *)
Definition eq_int (x : json) (n : Z) : bool :=
  match x with
  | JInt m => m =? n
  | JBool b => (if b then 1 else 0) =? n
  | JFloat f => match float_integer f with Some m => m =? n | None => false end
  | _ => false
  end.

(** [x in [n1, n2, ...]] for a list of int literals. *)
Definition in_ints (x : json) (ns : list Z) : bool :=
  existsb (eq_int x) ns.

(** [x == k] for a str literal [k]. *)
Definition eq_str (x : json) (k : string) : bool :=
  match x with
  | JStr s => String.eqb s k
  | _ => false
  end.

(** [k in x] for a str literal [k]. *)
Definition contains (k : string) (x : json) : result bool :=
  match x with
  | JObj fields => Ok (match assoc k fields with Some _ => true | None => false end)
  | JArr items => Ok (existsb (fun v => eq_str v k) items)
  | JStr s => Ok (is_substring k s)
  | _ => Raise TypeError
  end.

(** [x[k]] for a str literal [k]. *)
Definition getitem (x : json) (k : string) : result json :=
  match x with
  | JObj fields =>
      match assoc k fields with
      | Some v => Ok v
      | None => Raise (KeyError (JStr k))
      end
  | _ => Raise TypeError
  end.

(** [x[i]] for a non-negative int [i]. *)
Definition getindex (x : json) (i : nat) : result json :=
  match x with
  | JArr items =>
      match nth_error items i with
      | Some v => Ok v
      | None => Raise IndexError
      end
  | JStr s =>
      match nth_error (codepoints s) i with
      | Some c => Ok (JStr c)
      | None => Raise IndexError
      end
  | JObj _ => Raise (KeyError (JInt (Z.of_nat i)))
  | _ => Raise TypeError
  end.

(** [len(x)]. *)
Definition len (x : json) : result nat :=
  match x with
  | JArr items => Ok (List.length items)
  | JStr s => Ok (List.length (codepoints s))
  | JObj fields => Ok (List.length fields)
  | _ => Raise TypeError
  end.

(** [x.get(k, default)]. *)
Definition get (x : json) (k : string) (default : json) : result json :=
  match x with
  | JObj fields =>
      Ok (match assoc k fields with Some v => v | None => default end)
  | _ => Raise AttributeError
  end.

(** Truth value of [x] in [if x:]. *)
Definition truthy (x : json) : bool :=
  match x with
  | JNull => false
  | JBool b => b
  | JInt n => negb (n =? 0)
  | JFloat f =>
      match Prim2SF f with
      | S754_zero _ => false
      | _ => true
      end
  | JStr s => negb (String.eqb s "")
  | JArr items => match items with [] => false | _ => true end
  | JObj fields => match fields with [] => false | _ => true end
  end.

End Py.

(* ------------------------------------------------------------------ *)
(** ** Number formatting: the format spec [.4f] *)

Module Format.

(** Decimal digits of a non-negative integer. *)
Definition decimal (n : Z) : string :=
  NilZero.string_of_uint (N.to_uint (Z.to_N n)).

Definition digit (n : Z) : ascii :=
  ascii_of_nat (48 + Z.to_nat (n mod 10)).

(** Exactly four digits, zero padded, of [n mod 10000]. *)
Definition digits4 (n : Z) : string :=
  String (digit (n / 1000)) (String (digit (n / 100))
    (String (digit (n / 10)) (String (digit n) EmptyString))).

(** [num / den] rounded to the nearest integer, ties to even. *)
Definition div_half_even (num den : Z) : Z :=
  let q := num / den in
  let r := num mod den in
  if (den <? 2 * r) || ((2 * r =? den) && Z.odd q) then q + 1 else q.

(** The magnitude [m * 2^e] in units of [10^-4], correctly rounded. *)
Definition ten_thousandths (m : positive) (e : Z) : Z :=
  if 0 <=? e then Z.pos m * 2 ^ e * 10000
  else div_half_even (Z.pos m * 10000) (2 ^ (- e)).

Definition fixed4 (q : Z) : string :=
  decimal (q / 10000) ++ "." ++ digits4 (q mod 10000).

Definition minus (sign : bool) : string := if sign then "-" else "".

(** [format(x, '.4f')] for a binary64 value: the exact value rounded to four
    decimals, ties to even; the sign is kept on zero. *)
Definition sf_4f (x : spec_float) : string :=
  match x with
  | S754_nan => "nan"
  | S754_infinity sign => minus sign ++ "inf"
  | S754_zero sign => minus sign ++ fixed4 0
  | S754_finite sign m e => minus sign ++ fixed4 (ten_thousandths m e)
  end.

Definition float_4f (f : float) : string := sf_4f (Prim2SF f).

(** [float(n)] for an int: nearest binary64, [OverflowError] past the
    range. *)
Definition int_to_float (n : Z) : result spec_float :=
  match binary_normalize 53 1024 n 0 false with
  | S754_infinity _ => Raise OverflowError
  | x => Ok x
  end.

(** [f"{x:.4f}"]: floats directly, ints (and bools) through [float(x)];
    [str] rejects the format code, the other types reject any format
    spec. *)
Definition format_4f (x : json) : result string :=
  match x with
  | JFloat f => Ok (float_4f f)
  | JInt n => rbind (int_to_float n) (fun y => Ok (sf_4f y))
  | JBool b => Ok (sf_4f (binary_normalize 53 1024 (if b then 1 else 0) 0 false))
  | JStr _ => Raise ValueError
  | _ => Raise TypeError
  end.

End Format.

(* ------------------------------------------------------------------ *)
(** ** Dates: [pd.to_datetime(x).strftime('%a %d')] *)

Module Dates.

Definition digit_value (c : ascii) : option Z :=
  let n := Z.of_nat (nat_of_ascii c) in
  if (48 <=? n) && (n <=? 57) then Some (n - 48) else None.

Fixpoint number_of (digits : list ascii) (acc : Z) : option Z :=
  match digits with
  | [] => Some acc
  | c :: rest =>
      match digit_value c with
      | Some d => number_of rest (10 * acc + d)
      | None => None
      end
  end.

Definition is_leap (y : Z) : bool :=
  (y mod 4 =? 0) && (negb (y mod 100 =? 0) || (y mod 400 =? 0)).

Definition days_in_month (y m : Z) : Z :=
  if m =? 2 then (if is_leap y then 29 else 28)
  else if (m =? 4) || (m =? 6) || (m =? 9) || (m =? 11) then 30
  else 31.

(** A calendar date inside the range every [pd.Timestamp] covers
    (1677-09-21 to 2262-04-11). *)
Definition valid_date (y m d : Z) : bool :=
  (1678 <=? y) && (y <=? 2261) && (1 <=? m) && (m <=? 12) &&
  (1 <=? d) && (d <=? days_in_month y m).

(** The ISO calendar date [YYYY-MM-DD], the layout of Open-Meteo's
    [daily.time]. *)
Definition parse_iso (s : string) : option (Z * Z * Z) :=
  match list_ascii_of_string s with
  | [y1; y2; y3; y4; sep1; m1; m2; sep2; d1; d2] =>
      if Ascii.eqb sep1 "-" && Ascii.eqb sep2 "-" then
        match number_of [y1; y2; y3; y4] 0, number_of [m1; m2] 0,
              number_of [d1; d2] 0 with
        | Some y, Some m, Some d =>
            if valid_date y m d then Some (y, m, d) else None
        | _, _, _ => None
        end
      else None
  | _ => None
  end.

(** Days from 0001-01-01 (day 1) in the proleptic Gregorian calendar. *)
Definition days_before_year (y : Z) : Z :=
  let p := y - 1 in 365 * p + p / 4 - p / 100 + p / 400.

Fixpoint days_before_month (y : Z) (months : nat) : Z :=
  match months with
  | O => 0
  | S k => days_before_month y k + days_in_month y (Z.of_nat (S k))
  end.

Definition ordinal (y m d : Z) : Z :=
  days_before_year y + days_before_month y (Z.to_nat (m - 1)) + d.

(** Monday is 0. *)
Definition weekday (y m d : Z) : Z := (ordinal y m d + 6) mod 7.

(** [%a] in the C locale. *)
Definition abbreviations : list string :=
  ["Mon"; "Tue"; "Wed"; "Thu"; "Fri"; "Sat"; "Sun"].

Definition percent_a (w : Z) : string :=
  nth (Z.to_nat w) abbreviations "".

(** [%d]: day of the month, two digits. *)
Definition percent_d (d : Z) : string :=
  String (Format.digit (d / 10)) (String (Format.digit d) EmptyString).

Definition label (y m d : Z) : string :=
  percent_a (weekday y m d) ++ " " ++ percent_d d.

(** A calendar date: year, month, day of the month. *)
Definition ymd : Type := (Z * Z * Z)%type.

(** [pd.to_datetime(x)], as far as [strftime('%a %d')] looks at it: the
    calendar date of the timestamp, or the exception raised on the way.
    A str holding an ISO calendar date, the layout of the forecast
    endpoint, is read as written. What pandas makes of any other value (a
    date-time string, another layout, a year outside the range above, an
    epoch number, a bool, [None], ...), a date or an exception, is not
    modelled here but taken from [other], which the environment
    supplies. *)
Definition to_datetime (other : json -> result ymd) (x : json) : result ymd :=
  match x with
  | JStr s =>
      match parse_iso s with
      | Some date => Ok date
      | None => other x
      end
  | _ => other x
  end.

(** [.strftime('%a %d')] *)
Definition strftime_a_d (date : ymd) : string :=
  let '(y, m, d) := date in label y m d.

(** [pd.to_datetime(x).strftime('%a %d')] *)
Definition to_datetime_strftime (other : json -> result ymd) (x : json)
  : result string :=
  rbind (to_datetime other x) (fun date => Ok (strftime_a_d date)).

(** [x] is a str holding an ISO calendar date. *)
Definition is_iso_date (x : json) : bool :=
  match x with
  | JStr s => match parse_iso s with Some _ => true | None => false end
  | _ => false
  end.

End Dates.

(** The weekday by another route, to hold [Dates.weekday] against:
    Sakamoto's method on the Gregorian calendar. *)
Module Reference.

Definition month_offset (m : Z) : Z :=
  nth (Z.to_nat (m - 1)) [0; 3; 2; 5; 0; 3; 5; 1; 4; 6; 2; 4] 0.

(** Sunday is 0. *)
Definition day_of_week (y m d : Z) : Z :=
  let y' := if m <? 3 then y - 1 else y in
  (y' + y' / 4 - y' / 100 + y' / 400 + month_offset m + d) mod 7.

Definition day_name (y m d : Z) : string :=
  nth (Z.to_nat (day_of_week y m d))
    ["Sun"; "Mon"; "Tue"; "Wed"; "Thu"; "Fri"; "Sat"] "".

End Reference.

(* ------------------------------------------------------------------ *)
(** ** The WMO table *)

Definition WEATHER_SYMBOLS : list (Z * (string * string)) :=
  [ (0, ("☀️", "Clear sky"));
    (1, ("🌤️", "Mainly clear"));
    (2, ("🌥️", "Partly cloudy"));
    (3, ("☁️", "Overcast"));
    (45, ("🌫️", "Fog"));
    (48, ("🌫️", "Depositing rime fog"));
    (51, ("🌦️", "Light drizzle"));
    (53, ("🌦️", "Moderate drizzle"));
    (55, ("🌦️", "Dense drizzle"));
    (56, ("🌧️", "Light freezing drizzle"));
    (57, ("🌧️", "Dense freezing drizzle"));
    (61, ("🌧️", "Slight rain"));
    (63, ("🌧️", "Moderate rain"));
    (65, ("🌧️", "Heavy rain"));
    (66, ("🌧️", "Light freezing rain"));
    (67, ("🌧️", "Heavy freezing rain"));
    (71, ("🌨️", "Slight snow fall"));
    (73, ("🌨️", "Moderate snow fall"));
    (75, ("🌨️", "Heavy snow fall"));
    (77, ("❄️", "Snow grains"));
    (80, ("🌧️", "Slight rain showers"));
    (81, ("🌧️", "Moderate rain showers"));
    (82, ("🌧️", "Violent rain showers"));
    (85, ("🌨️", "Slight snow showers"));
    (86, ("🌨️", "Heavy snow showers"));
    (95, ("⛈️", "Thunderstorm"));
    (96, ("⛈️", "Thunderstorm with slight hail"));
    (99, ("⛈️", "Thunderstorm with heavy hail")) ].

(** The default of both [WEATHER_SYMBOLS.get] calls. *)
Definition unknown_entry : string * string := ("❓", "Unknown").

(** The binding of an int key in a dict literal with int keys. *)
Fixpoint dict_find {V} (k : Z) (d : list (Z * V)) : option V :=
  match d with
  | [] => None
  | (k', v) :: rest => if k =? k' then Some v else dict_find k rest
  end.

(** The int key a decoded value hashes and compares equal to, if any;
    lists and dicts are unhashable. *)
Definition dict_key (x : json) : result (option Z) :=
  match x with
  | JInt n => Ok (Some n)
  | JBool b => Ok (Some (if b then 1 else 0))
  | JFloat f => Ok (Py.float_integer f)
  | JNull | JStr _ => Ok None
  | JArr _ | JObj _ => Raise TypeError
  end.

(** [WEATHER_SYMBOLS.get(code, ("❓", "Unknown"))]. *)
Definition WEATHER_SYMBOLS_get (code : json) : result (string * string) :=
  rbind (dict_key code) (fun key =>
    Ok (match key with
        | Some k =>
            match dict_find k WEATHER_SYMBOLS with
            | Some entry => entry
            | None => unknown_entry
            end
        | None => unknown_entry
        end)).

(* ------------------------------------------------------------------ *)
(** ** Streamlit, the environment and the state of a run *)

(** A replacement field [{v}] or literal text of an f-string whose fields
    are decoded values. *)
Inductive piece : Type :=
| Lit (s : string)
| Fmt (v : json).

Module St.

(** The HTML blocks given to [st.markdown], by the values they embed. *)
Inductive card : Type :=
| style_sheet
| temperature_card (temp : json)
| wind_card (wind : json)
| condition_card (symbol description : string)
| forecast_card (date symbol : string) (temperature_max temperature_min : json)
    (description : string).

(** The Streamlit calls that put something on the page. Widgets that only
    read input or lay out the page ([set_page_config], [tabs],
    [text_input], [st_folium], [columns]) are not recorded. *)
Inductive call : Type :=
| title (text : string)
| subheader (text : list piece)
| write (text : string)
| error (msg : string)
| success (msg : list piece)
| warning (msg : string)
| info (msg : string)
| markdown (block : card)
| snow
| balloons
| map (lat lon : json)
| sidebar_title
| sidebar_info.

Definition is_error (c : call) : bool :=
  match c with error _ => true | _ => false end.

Definition is_forecast_card (c : call) : bool :=
  match c with markdown (forecast_card _ _ _ _ _) => true | _ => false end.

End St.

(** The three GET requests, by endpoint and the parameters that vary. *)
Inductive request : Type :=
| geocoding_search (name : string)
| forecast_current (latitude longitude : json)
| forecast_daily (latitude longitude : json).

Definition is_geocoding (r : request) : bool :=
  match r with geocoding_search _ => true | _ => false end.

Definition is_forecast_daily (r : request) : bool :=
  match r with forecast_daily _ _ => true | _ => false end.

(** What [requests.get(...)], [raise_for_status()] and [json()] come to:
    a decoded body, or a [RequestException] (connection failure, timeout,
    non-2xx status, undecodable body) with its text. *)
Inductive http_response : Type :=
| RequestException (e : string)
| Body (data : json).

(** What a run meets outside the script: the answer to each request, and
    what pandas makes of a time value that is not an ISO calendar date
    (see [Dates.to_datetime]). *)
Record environment : Type := {
  answer :> request -> http_response;
  timestamp_other : json -> result Dates.ymd
}.

(** An environment given by its answers alone, for data whose time values
    are all ISO calendar dates: the other readings are never asked for. *)
Definition answering (answers : request -> http_response) : environment :=
  {| answer := answers; timestamp_other := fun _ => Raise ValueError |}.

(** The dict built by the search and the map handlers. *)
Record location : Type := {
  latitude : json;
  longitude : json;
  name : json;
  country : json
}.

(** One entry of the list [get_weather_forecast] builds. *)
Record forecast_day : Type := {
  date : string;
  temperature_max : json;
  temperature_min : json;
  weathercode : json
}.

Record app_state : Type := {
  location_data : option location;   (* st.session_state['location_data'] *)
  calls : list St.call;              (* Streamlit calls, oldest first *)
  requests : list request            (* requests sent, oldest first *)
}.

(** A fresh session: the slot is initialised to [None]. *)
Definition fresh : app_state :=
  {| location_data := None; calls := []; requests := [] |}.

(** Script code: reads and writes the state, returns or raises. What was
    shown and sent before an exception stays. *)
Definition M (A : Type) : Type := app_state -> result A * app_state.

Definition ret {A} (a : A) : M A := fun s => (Ok a, s).

Definition bind {A B} (c : M A) (k : A -> M B) : M B :=
  fun s =>
    match c s with
    | (Ok a, s') => k a s'
    | (Raise e, s') => (Raise e, s')
    end.

Definition lift {A} (r : result A) : M A := fun s => (r, s).

Declare Scope script_scope.
Delimit Scope script_scope with script.
Notation "x <- c ;; k" := (bind c (fun x => k))
  (at level 61, c at next level, right associativity) : script_scope.
Notation "' p <- c ;; k" := (bind c (fun x => match x with p => k end))
  (at level 61, p pattern, c at next level, right associativity) : script_scope.
Notation "c ;; k" := (bind c (fun _ => k))
  (at level 61, right associativity) : script_scope.
Notation "x <-? r ;; k" := (rbind r (fun x => k))
  (at level 61, r at next level, right associativity) : script_scope.
Open Scope script_scope.

(** A Streamlit call. *)
Definition st (c : St.call) : M unit :=
  fun s => (Ok tt, {| location_data := location_data s;
                      calls := calls s ++ [c];
                      requests := requests s |}).

(** [st.session_state['location_data'] = v]. *)
Definition set_location_data (v : option location) : M unit :=
  fun s => (Ok tt, {| location_data := v;
                      calls := calls s;
                      requests := requests s |}).

Definition get_location_data : M (option location) :=
  fun s => (Ok (location_data s), s).

(** [requests.get] with [raise_for_status] and [json]. *)
Definition requests_get (env : environment) (r : request) : M http_response :=
  fun s => (Ok (env r), {| location_data := location_data s;
                           calls := calls s;
                           requests := requests s ++ [r] |}).

(* ------------------------------------------------------------------ *)
(** ** Helper functions for API calls *)

Definition get_location_coordinates (env : environment) (city_name : string)
  : M (option location) :=
  response <- requests_get env (geocoding_search city_name) ;;
  match response with
  | Body data =>
      (* 'results' in data and len(data['results']) > 0 *)
      found <- lift (
        has <-? Py.contains "results" data ;;
        if has : bool then
          results <-? Py.getitem data "results" ;;
          n <-? Py.len results ;;
          Ok (0 <? n)%nat
        else Ok false) ;;
      if found : bool then
        location <- lift (
          results <-? Py.getitem data "results" ;;
          Py.getindex results 0) ;;
        lat <- lift (Py.getitem location "latitude") ;;
        lon <- lift (Py.getitem location "longitude") ;;
        nm <- lift (Py.get location "name" (JStr city_name)) ;;
        ctry <- lift (Py.get location "country" (JStr "")) ;;
        ret (Some {| latitude := lat; longitude := lon;
                     name := nm; country := ctry |})
      else ret None
  | RequestException e =>
      st (St.error ("Error fetching location data: " ++ e)) ;;
      ret None
  end.

(** Returns the block as decoded; Python's [None] is [JNull]. *)
Definition get_weather_data (env : environment) (latitude longitude : json)
  : M json :=
  response <- requests_get env (forecast_current latitude longitude) ;;
  match response with
  | Body data =>
      has <- lift (Py.contains "current_weather" data) ;;
      if has : bool then lift (Py.getitem data "current_weather")
      else ret JNull
  | RequestException e =>
      st (St.error ("Error fetching weather data: " ++ e)) ;;
      ret JNull
  end.

(** [for i in range(n)] collecting what each turn appends. *)
Fixpoint for_range {A} (body : nat -> result A) (start n : nat)
  : result (list A) :=
  match n with
  | O => Ok []
  | S n' =>
      a <-? body start ;;
      rest <-? for_range body (S start) n' ;;
      Ok (a :: rest)
  end.

(** The dict appended at turn [i]; its values are evaluated in the order
    they are written. *)
Definition forecast_entry (env : environment) (data : json) (i : nat)
  : result forecast_day :=
  daily <-? Py.getitem data "daily" ;;
  time <-? Py.getitem daily "time" ;;
  t <-? Py.getindex time i ;;
  d <-? Dates.to_datetime_strftime (timestamp_other env) t ;;
  daily <-? Py.getitem data "daily" ;;
  maxs <-? Py.getitem daily "temperature_2m_max" ;;
  tmax <-? Py.getindex maxs i ;;
  daily <-? Py.getitem data "daily" ;;
  mins <-? Py.getitem daily "temperature_2m_min" ;;
  tmin <-? Py.getindex mins i ;;
  daily <-? Py.getitem data "daily" ;;
  codes <-? Py.getitem daily "weathercode" ;;
  code <-? Py.getindex codes i ;;
  Ok {| date := d; temperature_max := tmax;
        temperature_min := tmin; weathercode := code |}.

Definition get_weather_forecast (env : environment) (latitude longitude : json)
  : M (option (list forecast_day)) :=
  response <- requests_get env (forecast_daily latitude longitude) ;;
  match response with
  | Body data =>
      has <- lift (Py.contains "daily" data) ;;
      if has : bool then
        forecast <- lift (
          daily <-? Py.getitem data "daily" ;;
          time <-? Py.getitem daily "time" ;;
          n <-? Py.len time ;;
          for_range (forecast_entry env data) 0 n) ;;
        ret (Some forecast)
      else ret None
  | RequestException e =>
      st (St.error ("Error fetching forecast data: " ++ e)) ;;
      ret None
  end.

(* ------------------------------------------------------------------ *)
(** ** Weather animation *)

Definition get_weather_animation (weather_code : json) : M unit :=
  if Py.in_ints weather_code [71; 73; 75; 77; 85; 86] then st St.snow
  else if Py.in_ints weather_code [95; 96; 99] then st St.balloons
  else ret tt.

(* ------------------------------------------------------------------ *)
(** ** The Streamlit script *)

(** What one run of the script reads from the page and the process. *)
Record inputs : Type := {
  FOLIUM_AVAILABLE : bool;   (* did the folium imports succeed *)
  city : string;             (* value of the text input *)
  map_data : json            (* value of [st_folium]; [None] is [JNull] *)
}.

Definition folium_missing : string :=
  "Folium and streamlit-folium are required for map functionality. Please install them using: pip install folium streamlit-folium".

(** [with tab1:] *)
Definition search_tab (env : environment) (city : string) : M unit :=
  if negb (String.eqb city "") then
    found <- get_location_coordinates env city ;;
    match found with
    | Some loc =>
        set_location_data (Some loc) ;;
        st (St.success [Lit "Selected: "; Fmt (name loc); Lit ", ";
                        Fmt (country loc)])
    | None =>
        st (St.error ("Could not find location: '" ++ city ++
                      "'. Please try again.")) ;;
        set_location_data None
    end
  else ret tt.

(** [with tab2:] *)
Definition map_tab (folium : bool) (map_data : json) : M unit :=
  if folium then
    st (St.write "Click on the map to select a location:") ;;
    (* map_data and 'last_clicked' in map_data and map_data['last_clicked'] *)
    clicked <- lift (
      if Py.truthy map_data then
        has <-? Py.contains "last_clicked" map_data ;;
        if has : bool then
          last <-? Py.getitem map_data "last_clicked" ;;
          Ok (Py.truthy last)
        else Ok false
      else Ok false) ;;
    if clicked : bool then
      selected_lat <- lift (
        last <-? Py.getitem map_data "last_clicked" ;;
        Py.getitem last "lat") ;;
      selected_lon <- lift (
        last <-? Py.getitem map_data "last_clicked" ;;
        Py.getitem last "lng") ;;
      lat4 <- lift (Format.format_4f selected_lat) ;;
      lon4 <- lift (Format.format_4f selected_lon) ;;
      let loc := {| latitude := selected_lat;
                    longitude := selected_lon;
                    name := JStr ("Lat: " ++ lat4 ++ ", Lon: " ++ lon4);
                    country := JStr "" |} in
      set_location_data (Some loc) ;;
      st (St.success [Lit "Selected location: "; Fmt (name loc)])
    else ret tt
  else
    st (St.warning "Map functionality is not available. Please install folium and streamlit-folium to use map selection.") ;;
    st (St.info "You can still use the city search feature above.").

(** [for i, day in enumerate(forecast_data[:5])], given the slice. *)
Fixpoint forecast_cards (days : list forecast_day) : M unit :=
  match days with
  | [] => ret tt
  | day :: rest =>
      '(day_symbol, day_desc) <- lift (WEATHER_SYMBOLS_get (weathercode day)) ;;
      st (St.markdown (St.forecast_card (date day) day_symbol
            (temperature_max day) (temperature_min day) day_desc)) ;;
      forecast_cards rest
  end.

(** Section 3 of the script, [if location_data:]. *)
Definition display (env : environment) : M unit :=
  current <- get_location_data ;;
  match current with
  | Some loc =>
      st (St.subheader [Lit "Weather for "; Fmt (name loc); Lit ", ";
                        Fmt (country loc)]) ;;
      weather_data <- get_weather_data env (latitude loc) (longitude loc) ;;
      if Py.truthy weather_data then
        temp <- lift (Py.getitem weather_data "temperature") ;;
        wind <- lift (Py.getitem weather_data "windspeed") ;;
        weather_code <- lift (Py.getitem weather_data "weathercode") ;;
        '(symbol, description) <- lift (WEATHER_SYMBOLS_get weather_code) ;;
        st (St.markdown St.style_sheet) ;;
        st (St.markdown (St.temperature_card temp)) ;;
        st (St.markdown (St.wind_card wind)) ;;
        st (St.markdown (St.condition_card symbol description)) ;;
        get_weather_animation weather_code ;;
        st (St.subheader [Lit "📍 Location Map"]) ;;
        st (St.map (latitude loc) (longitude loc)) ;;
        st (St.subheader [Lit "📅 5-Day Weather Forecast"]) ;;
        forecast_data <- get_weather_forecast env (latitude loc) (longitude loc) ;;
        match forecast_data with
        | Some (day :: days) => forecast_cards (firstn 5 (day :: days))
        | _ => st (St.warning "Could not retrieve forecast data.")
        end
      else
        st (St.error "Could not retrieve weather data for this location.")
  | None => ret tt
  end.

(** One run of [weather_app.py], top to bottom. *)
Definition script (env : environment) (inp : inputs) : M unit :=
  (if FOLIUM_AVAILABLE inp then ret tt else st (St.error folium_missing)) ;;
  st (St.title "🌦️ Real-Time Weather Predictor") ;;
  st (St.subheader [Lit "Select Location"]) ;;
  search_tab env (city inp) ;;
  map_tab (FOLIUM_AVAILABLE inp) (map_data inp) ;;
  display env ;;
  st St.sidebar_title ;;
  st St.sidebar_info.

(* ------------------------------------------------------------------ *)
(** ** Runs, expected entries and sample data *)

(** [c] run from [s] returns [a], shows [shown], sends [sent] and leaves
    the session slot at [slot]. *)
Definition runs {A} (c : M A) (s : app_state) (a : A)
    (slot : option location) (shown : list St.call) (sent : list request)
  : Prop :=
  c s = (Ok a, {| location_data := slot;
                  calls := calls s ++ shown;
                  requests := requests s ++ sent |}).

(** A geocoding match, as the search endpoint sends it. *)
Definition london_match : list (string * json) :=
  [ ("id", JInt 2643743);
    ("name", JStr "London");
    ("latitude", JFloat 0x1.9c1054c122c9p+5%float);
    ("longitude", JFloat (-0x1.01b34f42b5c6p-3)%float);
    ("country", JStr "United Kingdom") ].

Definition london_body : json :=
  JObj [("results", JArr [JObj london_match])].

(** A match that carries coordinates and a country but no name. *)
Definition nameless_match : list (string * json) :=
  [ ("latitude", JFloat 0x1.2p+5%float);
    ("longitude", JFloat 0x1.8p+3%float);
    ("country", JStr "Italy") ].

(** A session that already holds a location. *)
Definition paris : location :=
  {| latitude := JFloat 0x1.86db22d0e5604p+5%float;
     longitude := JFloat 0x1.2d0e560418937p+1%float;
     name := JStr "Paris";
     country := JStr "France" |}.

Definition resolved (loc : location) : app_state :=
  {| location_data := Some loc; calls := []; requests := [] |}.

(** The value [st_folium] returns after a click at [(lat, lng)]. *)
Definition click (lat lng : float) : json :=
  JObj [ ("last_clicked", JObj [("lat", JFloat lat); ("lng", JFloat lng)]) ].

(** Text made of decimal digits only. *)
Fixpoint all_digits (s : string) : bool :=
  match s with
  | EmptyString => true
  | String c rest =>
      let n := nat_of_ascii c in
      (48 <=? n)%nat && (n <=? 57)%nat && all_digits rest
  end.

(** The label of a [daily.time] element that is an ISO date. *)
Definition label_of (t : json) : string :=
  match t with
  | JStr s =>
      match Dates.parse_iso s with
      | Some date => Dates.strftime_a_d date
      | None => ""
      end
  | _ => ""
  end.

(** The forecast entry the four arrays give at index [i]. *)
Definition entry_at (times maxs mins codes : list json) (i : nat)
  : forecast_day :=
  {| date := label_of (nth i times JNull);
     temperature_max := nth i maxs JNull;
     temperature_min := nth i mins JNull;
     weathercode := nth i codes JNull |}.

(** A five-day [daily] block as the forecast endpoint sends it. *)
Definition five_times : list json :=
  [JStr "2024-01-15"; JStr "2024-01-16"; JStr "2024-01-17";
   JStr "2024-01-18"; JStr "2024-01-19"].

Definition five_maxs : list json :=
  [JFloat 0x1.4p+2; JFloat 0x1.8p+2; JFloat 0x1.cp+2; JFloat 0x1p+3;
   JFloat 0x1.2p+3].

Definition five_mins : list json :=
  [JFloat (-0x1p+0); JFloat 0x0p+0; JFloat 0x1p+0; JFloat 0x1p+1;
   JFloat 0x1.8p+1].

Definition five_codes : list json :=
  [JInt 3; JInt 61; JInt 71; JInt 95; JInt 0].

Definition daily_block (times maxs mins codes : list json)
  : list (string * json) :=
  [ ("time", JArr times);
    ("temperature_2m_max", JArr maxs);
    ("temperature_2m_min", JArr mins);
    ("weathercode", JArr codes) ].

Definition forecast_body (times maxs mins codes : list json) : json :=
  JObj [ ("latitude", JFloat 0x1.86db22d0e5604p+5);
         ("daily", JObj (daily_block times maxs mins codes)) ].

(** Two dates but a single maximum temperature. *)
Definition short_max_body : json :=
  forecast_body [JStr "2024-01-15"; JStr "2024-01-16"]
    [JFloat 0x1.4p+2]
    [JFloat (-0x1p+0); JFloat 0x0p+0]
    [JInt 3; JInt 61].

(** Two dates and three of everything else. *)
Definition long_data_body : json :=
  forecast_body [JStr "2024-01-15"; JStr "2024-01-16"]
    [JFloat 0x1.4p+2; JFloat 0x1.8p+2; JFloat 0x1.cp+2]
    [JFloat (-0x1p+0); JFloat 0x0p+0; JFloat 0x1p+0]
    [JInt 3; JInt 61; JInt 71].

(** Current conditions as the current-weather endpoint sends them. *)
Definition current_body : json :=
  JObj [ ("current_weather",
          JObj [ ("temperature", JFloat 0x1.e666666666666p+3);
                 ("windspeed", JFloat 0x1.4p+3);
                 ("weathercode", JInt 3) ]) ].

(** The forecast endpoint answers; the current-weather endpoint answers
    or fails. *)
Definition current_down : environment :=
  answering (fun r =>
    match r with
    | geocoding_search _ => Body london_body
    | forecast_current _ _ => RequestException "Read timed out."
    | forecast_daily _ _ =>
        Body (forecast_body five_times five_maxs five_mins five_codes)
    end).

Definition all_up : environment :=
  answering (fun r =>
    match r with
    | geocoding_search _ => Body london_body
    | forecast_current _ _ => Body current_body
    | forecast_daily _ _ =>
        Body (forecast_body five_times five_maxs five_mins five_codes)
    end).

(** A [current_weather] block without its weather code. *)
Definition no_code_block : json :=
  JObj [ ("temperature", JFloat 0x1.e666666666666p+3);
         ("windspeed", JFloat 0x1.4p+3) ].

Definition no_code_net : environment :=
  answering (fun _ => Body (JObj [("current_weather", no_code_block)])).

(** [c] ends with [r] from every state, having shown [shown] and sent
    [sent], and leaves the session slot alone: its outcome does not depend
    on the session. *)
Definition yields {A} (c : M A) (r : result A)
    (shown : list St.call) (sent : list request) : Prop :=
  forall s,
    c s = (r, {| location_data := location_data s;
                 calls := calls s ++ shown;
                 requests := requests s ++ sent |}).

(** Sends nothing. *)
Definition quiet {A} (c : M A) : Prop :=
  exists r shown, yields c r shown [].

(** Sends the one request [req]. *)
Definition asks {A} (c : M A) (req : request) : Prop :=
  exists r shown, yields c r shown [req].

(** Sends nothing, or the one request [req]. *)
Definition at_most {A} (c : M A) (req : request) : Prop :=
  exists r shown, yields c r shown [] \/ yields c r shown [req].

(** A decoded value Python can hash: anything but a list or a dict. *)
Definition hashable (x : json) : bool :=
  match x with
  | JArr _ | JObj _ => false
  | _ => true
  end.

(** The table entry of a hashable code. *)
Definition entry_of (code : json) : string * string :=
  match WEATHER_SYMBOLS_get code with
  | Ok entry => entry
  | Raise _ => unknown_entry
  end.

(** The forecast card of one day. *)
Definition card_of (day : forecast_day) : St.call :=
  St.markdown
    (St.forecast_card (date day) (fst (entry_of (weathercode day)))
       (temperature_max day) (temperature_min day)
       (snd (entry_of (weathercode day)))).

(** The value of [st_folium] holds no click: it is [None], or a dict
    without [last_clicked], or one whose [last_clicked] is [None]. *)
Definition no_click (map_data : json) : Prop :=
  map_data = JNull \/
  exists fields,
    map_data = JObj fields /\
    (Py.assoc "last_clicked" fields = None \/
     Py.assoc "last_clicked" fields = Some JNull).

(** The location the map tab builds from a click. *)
Definition clicked_location (lat lon : float) : location :=
  {| latitude := JFloat lat;
     longitude := JFloat lon;
     name := JStr ("Lat: " ++ Format.float_4f lat ++ ", Lon: " ++
                   Format.float_4f lon);
     country := JStr "" |}.

(** The heading of the display block. *)
Definition heading_of (loc : location) : St.call :=
  St.subheader [Lit "Weather for "; Fmt (name loc); Lit ", ";
                Fmt (country loc)].

(** What the display block shows of the current conditions, up to the
    forecast heading. *)
Definition current_shown (loc : location) (temp wind code : json)
  : list St.call :=
  [ St.markdown St.style_sheet;
    St.markdown (St.temperature_card temp);
    St.markdown (St.wind_card wind);
    St.markdown (St.condition_card (fst (entry_of code))
                   (snd (entry_of code))) ] ++
  (if Py.in_ints code [71; 73; 75; 77; 85; 86] then [St.snow]
   else if Py.in_ints code [95; 96; 99] then [St.balloons]
   else []) ++
  [ St.subheader [Lit "📍 Location Map"];
    St.map (latitude loc) (longitude loc);
    St.subheader [Lit "📅 5-Day Weather Forecast"] ].

(** A seven-day [daily] block, and an environment whose every answer is
    good. *)
Definition week_times : list json :=
  [JStr "2024-02-26"; JStr "2024-02-27"; JStr "2024-02-28";
   JStr "2024-02-29"; JStr "2024-03-01"; JStr "2024-03-02";
   JStr "2024-03-03"].

Definition week_temperatures : list json :=
  [JInt 4; JInt 5; JInt 6; JInt 7; JInt 8; JInt 9; JInt 10].

Definition week_codes : list json :=
  [JInt 0; JInt 1; JInt 2; JInt 3; JInt 45; JInt 48; JInt 51].

Definition week_up : environment :=
  answering (fun r =>
    match r with
    | geocoding_search _ => Body london_body
    | forecast_current _ _ => Body current_body
    | forecast_daily _ _ =>
        Body (forecast_body week_times week_temperatures week_temperatures
                week_codes)
    end).

(** The label of a [daily.time] element, as pandas reads it in [env]. *)
Definition read_label (env : environment) (t : json) : string :=
  match Dates.to_datetime (timestamp_other env) t with
  | Ok date => Dates.strftime_a_d date
  | Raise _ => ""
  end.

(** The forecast entry the four arrays give at index [i] in [env]. *)
Definition entry_read (env : environment) (times maxs mins codes : list json)
    (i : nat) : forecast_day :=
  {| date := read_label env (nth i times JNull);
     temperature_max := nth i maxs JNull;
     temperature_min := nth i mins JNull;
     weathercode := nth i codes JNull |}.

(** Five days across the turn of a year. *)
Definition turn_times : list json :=
  [JStr "2024-12-30"; JStr "2024-12-31"; JStr "2025-01-01";
   JStr "2025-01-02"; JStr "2025-01-03"].

(** The number a [.4f] text denotes, as a sign and a count of
    ten-thousandths: an optional minus, then decimal digits, a point and
    four decimals. *)
Definition read_4f (text : string) : option (bool * Z) :=
  let '(sign, body) :=
    match text with
    | String c rest => if Ascii.eqb c "-" then (true, rest) else (false, text)
    | EmptyString => (false, text)
    end in
  let n := String.length body in
  let whole := substring 0 (n - 5) body in
  let point := substring (n - 5) 1 body in
  let decimals := substring (n - 4) 4 body in
  if (5 <=? n)%nat && String.eqb point "." then
    match NilZero.uint_of_string whole,
          Dates.number_of (list_ascii_of_string decimals) 0 with
    | Some u, Some fraction =>
        Some (sign, Z.of_N (N.of_uint u) * 10000 + fraction)
    | _, _ => None
    end
  else None.

(* ================================================================== *)
(** * Properties *)

Lemma truthy_obj k fields v :
  Py.assoc k fields = Some v -> Py.truthy (JObj fields) = true.
Proof. now destruct fields. Qed.

(* ------------------------------------------------------------------ *)
(** ** The catalog lookup *)

Section Dict.
Context {V : Type}.

Lemma dict_find_absent (k : Z) (d : list (Z * V)) :
  ~ In k (map fst d) -> dict_find k d = None.
Proof.
  induction d as [|[k' v] d IH]; cbn; [easy|].
  intros Hk. destruct (Z.eqb_spec k k') as [->|_].
  - exfalso. apply Hk. now left.
  - apply IH. intros Hin. apply Hk. now right.
Qed.

Lemma dict_find_present (k : Z) (v : V) (d : list (Z * V)) :
  NoDup (map fst d) -> In (k, v) d -> dict_find k d = Some v.
Proof.
  induction d as [|[k' v'] d IH]; cbn; [easy|].
  intros Hnd [Heq|Hin].
  - injection Heq as -> ->. now rewrite Z.eqb_refl.
  - inversion Hnd as [|? ? Hfresh Hrest]; subst.
    destruct (Z.eqb_spec k k') as [->|_].
    + exfalso. apply Hfresh. now apply (in_map fst _ (k', v)).
    + now apply IH.
Qed.
End Dict.

Lemma WEATHER_SYMBOLS_keys_distinct : NoDup (map fst WEATHER_SYMBOLS).
Proof.
  cbn. repeat (constructor; [cbn; intuition discriminate|]). constructor.
Qed.

(** C1. [WEATHER_SYMBOLS.get(code, ("❓", "Unknown"))] returns a pair for
    every integer [code]: the table's pair when the table has the code,
    the fallback pair when it has not, and it never raises. *)
Theorem WEATHER_SYMBOLS_get_total (code : Z) :
  exists entry,
    WEATHER_SYMBOLS_get (JInt code) = Ok entry /\
    (forall e, In (code, e) WEATHER_SYMBOLS -> entry = e) /\
    (~ In code (map fst WEATHER_SYMBOLS) -> entry = ("❓", "Unknown")).
Proof.
  unfold WEATHER_SYMBOLS_get. cbn [dict_key rbind].
  destruct (dict_find code WEATHER_SYMBOLS) as [entry|] eqn:Hfind.
  - exists entry. split; [reflexivity|]. split.
    + intros e Hin.
      rewrite (dict_find_present _ _ _ WEATHER_SYMBOLS_keys_distinct Hin) in Hfind.
      congruence.
    + intros Habsent. now rewrite (dict_find_absent _ _ Habsent) in Hfind.
  - exists unknown_entry. split; [reflexivity|]. split.
    + intros e Hin.
      rewrite (dict_find_present _ _ _ WEATHER_SYMBOLS_keys_distinct Hin) in Hfind.
      discriminate.
    + reflexivity.
Qed.

Lemma WEATHER_SYMBOLS_get_total_witness :
  WEATHER_SYMBOLS_get (JInt 3) = Ok ("☁️", "Overcast") /\
  WEATHER_SYMBOLS_get (JInt 13) = Ok ("❓", "Unknown") /\
  WEATHER_SYMBOLS_get (JInt (-1)) = Ok ("❓", "Unknown").
Proof.
  split; [|split].
  - destruct (WEATHER_SYMBOLS_get_total 3) as (entry & Hget & Hin & _).
    rewrite Hget. f_equal. apply Hin. cbn. tauto.
  - destruct (WEATHER_SYMBOLS_get_total 13) as (entry & Hget & _ & Hout).
    rewrite Hget. f_equal. apply Hout. cbn. intuition discriminate.
  - destruct (WEATHER_SYMBOLS_get_total (-1)) as (entry & Hget & _ & Hout).
    rewrite Hget. f_equal. apply Hout. cbn. intuition discriminate.
Defined.

Example lookup_3 : WEATHER_SYMBOLS_get (JInt 3) = Ok ("☁️", "Overcast").
Proof. reflexivity. Qed.

Example lookup_13 : WEATHER_SYMBOLS_get (JInt 13) = Ok ("❓", "Unknown").
Proof. reflexivity. Qed.

Example lookup_minus_1 : WEATHER_SYMBOLS_get (JInt (-1)) = Ok ("❓", "Unknown").
Proof. reflexivity. Qed.

(* ------------------------------------------------------------------ *)
(** ** The animation rule *)

Lemma in_ints_int (code : Z) (ns : list Z) :
  Py.in_ints (JInt code) ns = true <-> In code ns.
Proof.
  unfold Py.in_ints. rewrite existsb_exists. cbn. split.
  - intros (n & Hin & Heq). apply Z.eqb_eq in Heq. now subst.
  - intros Hin. exists code. now rewrite Z.eqb_refl.
Qed.

Lemma in_ints_int_false (code : Z) (ns : list Z) :
  ~ In code ns -> Py.in_ints (JInt code) ns = false.
Proof.
  intros Hn. destruct (Py.in_ints (JInt code) ns) eqn:E; [|reflexivity].
  now apply in_ints_int in E.
Qed.

(** C8. For an integer weather code, [get_weather_animation] calls
    [st.snow] exactly for the codes 71, 73, 75, 77, 85, 86, [st.balloons]
    exactly for 95, 96, 99, and does nothing for every other code. *)
Theorem get_weather_animation_trigger (code : Z) (s : app_state) :
  (In code [71; 73; 75; 77; 85; 86] ->
     runs (get_weather_animation (JInt code)) s tt
       (location_data s) [St.snow] []) /\
  (In code [95; 96; 99] ->
     runs (get_weather_animation (JInt code)) s tt
       (location_data s) [St.balloons] []) /\
  (~ In code [71; 73; 75; 77; 85; 86] -> ~ In code [95; 96; 99] ->
     get_weather_animation (JInt code) s = (Ok tt, s)).
Proof.
  unfold runs, get_weather_animation. repeat split.
  - intros Hin. apply in_ints_int in Hin. rewrite Hin. cbn.
    now rewrite app_nil_r.
  - intros Hin.
    rewrite in_ints_int_false by (cbn in *; lia).
    apply in_ints_int in Hin. rewrite Hin. cbn. now rewrite app_nil_r.
  - intros H1 H2. now rewrite !in_ints_int_false by assumption.
Qed.

Lemma get_weather_animation_trigger_witness :
  runs (get_weather_animation (JInt 77)) fresh tt None [St.snow] [] /\
  runs (get_weather_animation (JInt 96)) fresh tt None [St.balloons] [] /\
  get_weather_animation (JInt 3) fresh = (Ok tt, fresh).
Proof.
  split; [|split].
  - apply (proj1 (get_weather_animation_trigger 77 fresh)). cbn. tauto.
  - apply (proj1 (proj2 (get_weather_animation_trigger 96 fresh))). cbn. tauto.
  - apply (proj2 (proj2 (get_weather_animation_trigger 3 fresh)));
      cbn; intuition discriminate.
Defined.

(* ------------------------------------------------------------------ *)
(** ** The geocoder and the search tab *)

Section Geocoder.
Variable env : environment.
Variable city_name : string.
Variable fields : list (string * json).
Hypothesis response : env (geocoding_search city_name) = Body (JObj fields).

(** The first element of a non-empty [results] list, with its two
    coordinates, becomes the returned dict. *)
Lemma get_location_coordinates_match (s : app_state)
    (first : list (string * json)) (others : list json) (lat lon : json) :
  Py.assoc "results" fields = Some (JArr (JObj first :: others)) ->
  Py.assoc "latitude" first = Some lat ->
  Py.assoc "longitude" first = Some lon ->
  runs (get_location_coordinates env city_name) s
    (Some {| latitude := lat;
             longitude := lon;
             name := match Py.assoc "name" first with
                     | Some v => v
                     | None => JStr city_name
                     end;
             country := match Py.assoc "country" first with
                        | Some v => v
                        | None => JStr ""
                        end |})
    (location_data s) [] [geocoding_search city_name].
Proof.
  intros Hres Hlat Hlon.
  unfold runs, get_location_coordinates, bind, requests_get, lift, ret.
  cbn. rewrite response. cbn. rewrite Hres. cbn.
  rewrite Hlat, Hlon. cbn. now rewrite app_nil_r.
Qed.

(** No [results] key, or an empty [results] list: [None], nothing
    shown. *)
Lemma get_location_coordinates_no_match (s : app_state) :
  Py.assoc "results" fields = None \/
  Py.assoc "results" fields = Some (JArr []) ->
  runs (get_location_coordinates env city_name) s None
    (location_data s) [] [geocoding_search city_name].
Proof.
  intros Hres.
  unfold runs, get_location_coordinates, bind, requests_get, lift, ret.
  cbn. rewrite response. cbn.
  destruct Hres as [-> | ->]; cbn; now rewrite app_nil_r.
Qed.
End Geocoder.

Lemma append_assoc_str (a b c : string) : (a ++ b) ++ c = a ++ (b ++ c).
Proof. induction a as [|x a IH]; cbn; [reflexivity|now rewrite IH]. Qed.

(** C9. When the geocoding response holds a match, the returned location
    takes latitude, longitude, name and country from that match, and its
    country is the empty string when the match has none. *)
Theorem get_location_coordinates_maps_match
    (env : environment) (city_name : string) (s : app_state)
    (fields first : list (string * json)) (others : list json)
    (lat lon : json) :
  env (geocoding_search city_name) = Body (JObj fields) ->
  Py.assoc "results" fields = Some (JArr (JObj first :: others)) ->
  Py.assoc "latitude" first = Some lat ->
  Py.assoc "longitude" first = Some lon ->
  exists loc,
    runs (get_location_coordinates env city_name) s (Some loc)
      (location_data s) [] [geocoding_search city_name] /\
    latitude loc = lat /\
    longitude loc = lon /\
    (forall v, Py.assoc "name" first = Some v -> name loc = v) /\
    (forall v, Py.assoc "country" first = Some v -> country loc = v) /\
    (Py.assoc "country" first = None -> country loc = JStr "").
Proof.
  intros Hnet Hres Hlat Hlon.
  eexists. split.
  - exact (get_location_coordinates_match env city_name fields Hnet s
             first others lat lon Hres Hlat Hlon).
  - cbn. repeat split.
    + now intros v ->.
    + now intros v ->.
    + now intros ->.
Qed.

Lemma get_location_coordinates_maps_match_witness :
  exists loc,
    runs (get_location_coordinates (answering (fun _ => Body london_body)) "London")
      fresh (Some loc) None [] [geocoding_search "London"] /\
    latitude loc = JFloat 0x1.9c1054c122c9p+5%float /\
    longitude loc = JFloat (-0x1.01b34f42b5c6p-3)%float /\
    (forall v, Py.assoc "name" london_match = Some v -> name loc = v) /\
    (forall v, Py.assoc "country" london_match = Some v -> country loc = v) /\
    (Py.assoc "country" london_match = None -> country loc = JStr "").
Proof.
  exact (get_location_coordinates_maps_match (answering (fun _ => Body london_body))
           "London" fresh [("results", JArr [JObj london_match])]
           london_match [] _ _ eq_refl eq_refl eq_refl eq_refl).
Defined.

Lemma nonempty_eqb (city : string) : city <> "" -> String.eqb city "" = false.
Proof. intros H. now apply String.eqb_neq. Qed.

(** The search tab after a match: the slot holds the new location and a
    success line is shown. *)
Lemma search_tab_match (env : environment) (city : string) (s : app_state)
    (fields first : list (string * json)) (others : list json)
    (lat lon : json) :
  city <> "" ->
  env (geocoding_search city) = Body (JObj fields) ->
  Py.assoc "results" fields = Some (JArr (JObj first :: others)) ->
  Py.assoc "latitude" first = Some lat ->
  Py.assoc "longitude" first = Some lon ->
  let nm := match Py.assoc "name" first with
            | Some v => v
            | None => JStr city
            end in
  let ctry := match Py.assoc "country" first with
              | Some v => v
              | None => JStr ""
              end in
  runs (search_tab env city) s tt
    (Some {| latitude := lat; longitude := lon;
             name := nm; country := ctry |})
    [St.success [Lit "Selected: "; Fmt nm; Lit ", "; Fmt ctry]]
    [geocoding_search city].
Proof.
  intros Hcity Hnet Hres Hlat Hlon nm ctry.
  unfold runs, search_tab. rewrite (nonempty_eqb _ Hcity). cbn [negb].
  unfold bind.
  rewrite (get_location_coordinates_match env city fields Hnet s
             first others lat lon Hres Hlat Hlon).
  cbn. now rewrite app_nil_r.
Qed.

(** C10. When the match has no name field, the returned location is named
    by the queried string itself; the search tab queries only for a
    non-empty string, so the name it stores is then neither absent nor
    empty. *)
Theorem get_location_coordinates_name_fallback
    (env : environment) (city : string) (s : app_state)
    (fields first : list (string * json)) (others : list json)
    (lat lon : json) :
  env (geocoding_search city) = Body (JObj fields) ->
  Py.assoc "results" fields = Some (JArr (JObj first :: others)) ->
  Py.assoc "latitude" first = Some lat ->
  Py.assoc "longitude" first = Some lon ->
  Py.assoc "name" first = None ->
  (exists loc,
     fst (get_location_coordinates env city s) = Ok (Some loc) /\
     name loc = JStr city) /\
  (city = "" -> search_tab env city s = (Ok tt, s)) /\
  (city <> "" ->
     exists loc,
       fst (search_tab env city s) = Ok tt /\
       location_data (snd (search_tab env city s)) = Some loc /\
       name loc = JStr city /\
       name loc <> JStr "" /\
       name loc <> JNull).
Proof.
  intros Hnet Hres Hlat Hlon Hname. split; [|split].
  - eexists. split.
    + rewrite (get_location_coordinates_match env city fields Hnet s
                 first others lat lon Hres Hlat Hlon).
      reflexivity.
    + cbn. now rewrite Hname.
  - intros ->. reflexivity.
  - intros Hcity. eexists. split; [|split; [|split; [|split]]].
    + now rewrite (search_tab_match env city s fields first others lat lon
                     Hcity Hnet Hres Hlat Hlon).
    + rewrite (search_tab_match env city s fields first others lat lon
                 Hcity Hnet Hres Hlat Hlon).
      reflexivity.
    + cbn. now rewrite Hname.
    + cbn. rewrite Hname. congruence.
    + cbn. rewrite Hname. discriminate.
Qed.

Lemma get_location_coordinates_name_fallback_witness :
  (exists loc,
     fst (get_location_coordinates
            (answering (fun _ => Body (JObj [("results", JArr [JObj nameless_match])])))
            "Torre" fresh) = Ok (Some loc) /\
     name loc = JStr "Torre") /\
  "Torre" <> "".
Proof.
  split; [|discriminate].
  exact (proj1 (get_location_coordinates_name_fallback
                  (answering (fun _ => Body (JObj [("results", JArr [JObj nameless_match])])))
                  "Torre" fresh [("results", JArr [JObj nameless_match])]
                  nameless_match [] _ _ eq_refl eq_refl eq_refl eq_refl eq_refl)).
Defined.

(** C6. When the geocoding response has no [results] field or an empty
    [results] list, [get_location_coordinates] returns [None]; the search
    tab then shows the error line that names the query and sets the
    session slot to [None], whatever it held. *)
Theorem search_tab_not_found
    (env : environment) (city : string) (s : app_state)
    (fields : list (string * json)) :
  city <> "" ->
  env (geocoding_search city) = Body (JObj fields) ->
  Py.assoc "results" fields = None \/
  Py.assoc "results" fields = Some (JArr []) ->
  fst (get_location_coordinates env city s) = Ok None /\
  runs (search_tab env city) s tt None
    [St.error (("Could not find location: '" ++ city ++ "'") ++
               ". Please try again.")]
    [geocoding_search city].
Proof.
  intros Hcity Hnet Hres. split.
  - now rewrite (get_location_coordinates_no_match env city fields Hnet s Hres).
  - unfold runs, search_tab. rewrite (nonempty_eqb _ Hcity). cbn [negb].
    unfold bind.
    rewrite (get_location_coordinates_no_match env city fields Hnet s Hres).
    cbn. rewrite app_nil_r.
    now rewrite <- (append_assoc_str _ "'" ". Please try again.").
Qed.

Lemma search_tab_not_found_witness :
  fst (get_location_coordinates (answering (fun _ => Body (JObj [("results", JArr [])])))
         "Nonexistentplacexyz123" (resolved paris)) = Ok None /\
  runs (search_tab (answering (fun _ => Body (JObj [("results", JArr [])])))
          "Nonexistentplacexyz123")
    (resolved paris) tt None
    [St.error "Could not find location: 'Nonexistentplacexyz123'. Please try again."]
    [geocoding_search "Nonexistentplacexyz123"].
Proof.
  refine (search_tab_not_found (answering (fun _ => Body (JObj [("results", JArr [])])))
            "Nonexistentplacexyz123" (resolved paris)
            [("results", JArr [])] _ eq_refl (or_intror eq_refl)).
  discriminate.
Defined.

(* ------------------------------------------------------------------ *)
(** ** The map tab *)

(** C7. After a map click at [(lat, lon)] the map tab stores a location
    with the clicked coordinates, the name
    ["Lat: {lat:.4f}, Lon: {lon:.4f}"] and the empty country, and sends no
    request at all, so none to the geocoder. *)
Theorem map_tab_click (map_data : list (string * json))
    (last_clicked : list (string * json)) (lat lon : float) (s : app_state) :
  Py.assoc "last_clicked" map_data = Some (JObj last_clicked) ->
  Py.assoc "lat" last_clicked = Some (JFloat lat) ->
  Py.assoc "lng" last_clicked = Some (JFloat lon) ->
  let shown_name :=
    "Lat: " ++ Format.float_4f lat ++ ", Lon: " ++ Format.float_4f lon in
  runs (map_tab true (JObj map_data)) s tt
    (Some {| latitude := JFloat lat;
             longitude := JFloat lon;
             name := JStr shown_name;
             country := JStr "" |})
    [St.write "Click on the map to select a location:";
     St.success [Lit "Selected location: "; Fmt (JStr shown_name)]]
    [].
Proof.
  intros Hlast Hlat Hlon shown_name.
  unfold runs, map_tab, bind, st, lift, ret, set_location_data.
  rewrite (truthy_obj _ _ _ Hlast). cbn -[Py.truthy Py.assoc].
  rewrite Hlast. cbn -[Py.truthy Py.assoc].
  rewrite (truthy_obj _ _ _ Hlat), Hlat, Hlon. cbn.
  now rewrite app_nil_r, <- app_assoc.
Qed.

(** The click of the specification: (51.5074, -0.1278), each the nearest
    binary64 value. *)
Lemma map_tab_click_witness :
  runs (map_tab true (click 0x1.9c0f27bb2fec5p+5 (-0x1.05bc01a36e2ebp-3)))
    fresh tt
    (Some {| latitude := JFloat 0x1.9c0f27bb2fec5p+5;
             longitude := JFloat (-0x1.05bc01a36e2ebp-3);
             name := JStr "Lat: 51.5074, Lon: -0.1278";
             country := JStr "" |})
    [St.write "Click on the map to select a location:";
     St.success [Lit "Selected location: ";
                 Fmt (JStr "Lat: 51.5074, Lon: -0.1278")]]
    [].
Proof.
  exact (map_tab_click
           [("last_clicked",
             JObj [("lat", JFloat 0x1.9c0f27bb2fec5p+5);
                   ("lng", JFloat (-0x1.05bc01a36e2ebp-3))])]
           [("lat", JFloat 0x1.9c0f27bb2fec5p+5);
            ("lng", JFloat (-0x1.05bc01a36e2ebp-3))]
           0x1.9c0f27bb2fec5p+5 (-0x1.05bc01a36e2ebp-3)
           fresh eq_refl eq_refl eq_refl).
Defined.

Lemma digit_is_digit (n : Z) :
  all_digits (String (Format.digit n) EmptyString) = true.
Proof.
  unfold Format.digit. cbn [all_digits].
  assert (H : (Z.to_nat (n mod 10) < 10)%nat)
    by (pose proof (Z.mod_pos_bound n 10); lia).
  rewrite nat_ascii_embedding by lia.
  rewrite andb_true_r. apply andb_true_intro. split.
  - apply Nat.leb_le. lia.
  - apply Nat.leb_le. lia.
Qed.

Lemma digits4_shape (n : Z) :
  String.length (Format.digits4 n) = 4%nat /\
  all_digits (Format.digits4 n) = true.
Proof.
  split; [reflexivity|].
  unfold Format.digits4.
  pose proof (digit_is_digit (n / 1000)) as H1.
  pose proof (digit_is_digit (n / 100)) as H2.
  pose proof (digit_is_digit (n / 10)) as H3.
  pose proof (digit_is_digit n) as H4.
  cbn [all_digits] in *.
  rewrite andb_true_r in H1, H2, H3, H4.
  now rewrite H1, H2, H3, H4.
Qed.

(** X16. [.4f] on a finite float ends in a point and exactly four
    digits, so the name built from a click always carries four decimals
    of each coordinate. *)
Lemma float_4f_four_decimals (f : float) :
  (exists sign m e, Prim2SF f = S754_finite sign m e) \/
  (exists sign, Prim2SF f = S754_zero sign) ->
  exists whole decimals,
    Format.float_4f f = whole ++ "." ++ decimals /\
    String.length decimals = 4%nat /\
    all_digits decimals = true.
Proof.
  unfold Format.float_4f.
  intros [(sign & m & e & ->) | (sign & ->)]; cbn [Format.sf_4f];
    unfold Format.fixed4; rewrite <- append_assoc_str;
    eexists; eexists; (split; [reflexivity|apply digits4_shape]).
Qed.

(** A whole run after that click, the text input left empty: the only
    requests are the two weather requests for the clicked point. *)
Example script_click_requests :
  requests (snd (script all_up
                   {| FOLIUM_AVAILABLE := true;
                      city := "";
                      map_data := click 0x1.9c0f27bb2fec5p+5
                                    (-0x1.05bc01a36e2ebp-3) |}
                   fresh))
  = [ forecast_current (JFloat 0x1.9c0f27bb2fec5p+5)
        (JFloat (-0x1.05bc01a36e2ebp-3));
      forecast_daily (JFloat 0x1.9c0f27bb2fec5p+5)
        (JFloat (-0x1.05bc01a36e2ebp-3)) ].
Proof. vm_compute. reflexivity. Qed.

(* ------------------------------------------------------------------ *)
(** ** The forecast *)

Section ForRange.
Context {A : Type}.
Variable body : nat -> result A.

Lemma for_range_all_ok (f : nat -> A) (n start : nat) :
  (forall i, (start <= i < start + n)%nat -> body i = Ok (f i)) ->
  for_range body start n = Ok (map f (seq start n)).
Proof.
  revert start. induction n as [|n IH]; intros start Hbody; cbn.
  - reflexivity.
  - rewrite Hbody by lia. cbn.
    rewrite IH by (intros i Hi; apply Hbody; lia).
    reflexivity.
Qed.

Lemma for_range_first_raise (f : nat -> A) (e : exn) (n start k : nat) :
  (start <= k < start + n)%nat ->
  (forall i, (start <= i < k)%nat -> body i = Ok (f i)) ->
  body k = Raise e ->
  for_range body start n = Raise e.
Proof.
  revert start. induction n as [|n IH]; intros start Hk Hbefore Hraise; cbn.
  - lia.
  - destruct (Nat.eq_dec start k) as [->|Hne].
    + now rewrite Hraise.
    + rewrite Hbefore by lia. cbn.
      rewrite IH; [reflexivity|lia| |assumption].
      intros i Hi. apply Hbefore. lia.
Qed.
End ForRange.

Lemma iso_date_label (other : json -> result Dates.ymd) (t : json) :
  Dates.is_iso_date t = true ->
  Dates.to_datetime_strftime other t = Ok (label_of t).
Proof.
  unfold label_of, Dates.is_iso_date, Dates.to_datetime_strftime,
    Dates.to_datetime.
  destruct t; try discriminate.
  destruct (Dates.parse_iso s) as [date|]; [reflexivity|discriminate].
Qed.

Lemma forallb_nth {B} (p : B -> bool) (l : list B) (i : nat) (d : B) :
  forallb p l = true -> (i < List.length l)%nat -> p (nth i l d) = true.
Proof.
  intros Hall Hi. rewrite forallb_forall in Hall. apply Hall.
  now apply nth_In.
Qed.

Lemma getindex_arr (l : list json) (i : nat) :
  (i < List.length l)%nat -> Py.getindex (JArr l) i = Ok (nth i l JNull).
Proof.
  intros Hi. cbn. now rewrite (nth_error_nth' l JNull Hi).
Qed.

Lemma getindex_arr_short (l : list json) (i : nat) :
  (List.length l <= i)%nat -> Py.getindex (JArr l) i = Raise IndexError.
Proof.
  intros Hi. cbn.
  now rewrite (proj2 (nth_error_None l i) Hi).
Qed.

Section Forecast.
Variable env : environment.
Variables latitude longitude : json.
Variables fields daily : list (string * json).
Variables times maxs mins codes : list json.
Hypothesis response :
  env (forecast_daily latitude longitude) = Body (JObj fields).
Hypothesis has_daily : Py.assoc "daily" fields = Some (JObj daily).
Hypothesis has_time : Py.assoc "time" daily = Some (JArr times).
Hypothesis has_max :
  Py.assoc "temperature_2m_max" daily = Some (JArr maxs).
Hypothesis has_min :
  Py.assoc "temperature_2m_min" daily = Some (JArr mins).
Hypothesis has_code : Py.assoc "weathercode" daily = Some (JArr codes).
Hypothesis dates : forallb Dates.is_iso_date times = true.

Lemma forecast_entry_ok (i : nat) :
  (i < List.length times)%nat ->
  (i < List.length maxs)%nat ->
  (i < List.length mins)%nat ->
  (i < List.length codes)%nat ->
  forecast_entry env (JObj fields) i = Ok (entry_at times maxs mins codes i).
Proof.
  intros Ht Ha Hb Hc. unfold forecast_entry.
  cbn -[Py.assoc Py.getindex]. rewrite has_daily.
  cbn -[Py.assoc Py.getindex]. rewrite has_time, has_max, has_min, has_code.
  cbn -[Py.assoc Py.getindex].
  rewrite (getindex_arr times i Ht). cbn -[Py.assoc Py.getindex].
  rewrite (iso_date_label _ _ (forallb_nth _ _ i JNull dates Ht)).
  cbn -[Py.assoc Py.getindex].
  rewrite (getindex_arr maxs i Ha), (getindex_arr mins i Hb),
    (getindex_arr codes i Hc).
  reflexivity.
Qed.

Lemma forecast_entry_short (i : nat) :
  (i < List.length times)%nat ->
  (List.length maxs <= i)%nat \/ (List.length mins <= i)%nat \/
  (List.length codes <= i)%nat ->
  forecast_entry env (JObj fields) i = Raise IndexError.
Proof.
  intros Ht Hshort. unfold forecast_entry.
  cbn -[Py.assoc Py.getindex]. rewrite has_daily.
  cbn -[Py.assoc Py.getindex]. rewrite has_time, has_max, has_min, has_code.
  cbn -[Py.assoc Py.getindex].
  rewrite (getindex_arr times i Ht). cbn -[Py.assoc Py.getindex].
  rewrite (iso_date_label _ _ (forallb_nth _ _ i JNull dates Ht)).
  cbn -[Py.assoc Py.getindex].
  destruct (le_lt_dec (List.length maxs) i) as [Ha|Ha].
  { now rewrite (getindex_arr_short maxs i Ha). }
  rewrite (getindex_arr maxs i Ha). cbn -[Py.assoc Py.getindex].
  destruct (le_lt_dec (List.length mins) i) as [Hb|Hb].
  { now rewrite (getindex_arr_short mins i Hb). }
  rewrite (getindex_arr mins i Hb). cbn -[Py.assoc Py.getindex].
  rewrite (getindex_arr_short codes i) by lia.
  reflexivity.
Qed.

Lemma get_weather_forecast_unfold (s : app_state) :
  get_weather_forecast env latitude longitude s =
  match for_range (forecast_entry env (JObj fields)) 0 (List.length times) with
  | Ok forecast =>
      (Ok (Some forecast),
       {| location_data := location_data s;
          calls := calls s;
          requests := requests s ++ [forecast_daily latitude longitude] |})
  | Raise e =>
      (Raise e,
       {| location_data := location_data s;
          calls := calls s;
          requests := requests s ++ [forecast_daily latitude longitude] |})
  end.
Proof.
  unfold get_weather_forecast, bind, requests_get, lift, ret.
  cbn -[Py.assoc for_range]. rewrite response.
  cbn -[Py.assoc for_range]. rewrite has_daily.
  cbn -[Py.assoc for_range]. rewrite has_time.
  cbn -[Py.assoc for_range].
  now destruct (for_range _ _ _).
Qed.

(** One entry per element of [time] when no other array is shorter. *)
Lemma get_weather_forecast_long_enough (s : app_state) :
  (List.length times <= List.length maxs)%nat ->
  (List.length times <= List.length mins)%nat ->
  (List.length times <= List.length codes)%nat ->
  runs (get_weather_forecast env latitude longitude) s
    (Some (map (entry_at times maxs mins codes)
               (seq 0 (List.length times))))
    (location_data s) [] [forecast_daily latitude longitude].
Proof.
  intros Ha Hb Hc. unfold runs. rewrite get_weather_forecast_unfold.
  rewrite (for_range_all_ok _ (entry_at times maxs mins codes)).
  - now rewrite app_nil_r.
  - intros i Hi. apply forecast_entry_ok; lia.
Qed.

(** [IndexError] when some other array is shorter than [time]. *)
Lemma get_weather_forecast_too_short (s : app_state) :
  (List.length maxs < List.length times)%nat \/
  (List.length mins < List.length times)%nat \/
  (List.length codes < List.length times)%nat ->
  fst (get_weather_forecast env latitude longitude s) = Raise IndexError.
Proof.
  intros Hshort. rewrite get_weather_forecast_unfold.
  set (k := Nat.min (List.length maxs)
              (Nat.min (List.length mins) (List.length codes))).
  rewrite (for_range_first_raise _ (entry_at times maxs mins codes)
             IndexError _ 0 k).
  - reflexivity.
  - subst k. lia.
  - intros i Hi. apply forecast_entry_ok; subst k; lia.
  - apply forecast_entry_short; subst k; lia.
Qed.
End Forecast.

(** *** The label *)

Lemma digit_value_inv (c : ascii) (v : Z) :
  Dates.digit_value c = Some v ->
  0 <= v <= 9 /\ ascii_of_nat (48 + Z.to_nat v) = c.
Proof.
  unfold Dates.digit_value.
  destruct (_ && _) eqn:Hrange; [|discriminate].
  intros [= <-]. apply andb_prop in Hrange as [Hlo Hhi].
  apply Z.leb_le in Hlo, Hhi. split; [lia|].
  replace (48 + Z.to_nat (Z.of_nat (nat_of_ascii c) - 48))%nat
    with (nat_of_ascii c) by lia.
  apply ascii_nat_embedding.
Qed.

Lemma number_of_two (c1 c2 : ascii) (d : Z) :
  Dates.number_of [c1; c2] 0 = Some d ->
  exists a b,
    Dates.digit_value c1 = Some a /\ Dates.digit_value c2 = Some b /\
    d = 10 * a + b.
Proof.
  cbv beta iota fix delta [Dates.number_of].
  destruct (Dates.digit_value c1) as [a|]; [|discriminate].
  destruct (Dates.digit_value c2) as [b|]; [|discriminate].
  intros H. exists a, b.
  assert (Hd : 10 * (10 * 0 + a) + b = d) by congruence.
  repeat split. lia.
Qed.

Lemma two_digits (c1 c2 : ascii) (d : Z) :
  Dates.number_of [c1; c2] 0 = Some d ->
  Dates.percent_d d = String c1 (String c2 EmptyString).
Proof.
  intros H. apply number_of_two in H as (a & b & H1 & H2 & ->).
  apply digit_value_inv in H1 as [Ha <-], H2 as [Hb <-].
  unfold Dates.percent_d, Format.digit.
  rewrite <- (Z.div_unique (10 * a + b) 10 a b) by lia.
  rewrite <- (Z.mod_unique (10 * a + b) 10 a b) by lia.
  now rewrite (Z.mod_small a 10) by lia.
Qed.

(** [%d] gives back the two day digits of the ISO date. *)
Lemma parse_iso_day (iso : string) (y m d : Z) :
  Dates.parse_iso iso = Some (y, m, d) ->
  Dates.percent_d d = substring 8 2 iso.
Proof.
  unfold Dates.parse_iso.
  rewrite <- (string_of_list_ascii_of_string iso) at 2.
  destruct (list_ascii_of_string iso)
    as [|y1 [|y2 [|y3 [|y4 [|s1 [|m1 [|m2 [|s2 [|d1 [|d2 [|extra rest]]]]]]]]]]];
    try discriminate.
  destruct (_ && _); [|discriminate].
  destruct (Dates.number_of [y1; y2; y3; y4] 0); [|discriminate].
  destruct (Dates.number_of [m1; m2] 0); [|discriminate].
  destruct (Dates.number_of [d1; d2] 0) as [d'|] eqn:Hd; [|discriminate].
  destruct (Dates.valid_date _ _ _); [|discriminate].
  intros [= _ _ <-]. now apply two_digits.
Qed.

Lemma percent_a_in (y m d : Z) :
  In (Dates.percent_a (Dates.weekday y m d)) Dates.abbreviations.
Proof.
  unfold Dates.percent_a, Dates.weekday. apply nth_In.
  pose proof (Z.mod_pos_bound (Dates.ordinal y m d + 6) 7).
  cbn [Dates.abbreviations List.length]. lia.
Qed.

(** An ISO date is relabelled as the abbreviation of its weekday, a space
    and its own two day digits. *)
Lemma label_of_iso (iso : string) :
  Dates.is_iso_date (JStr iso) = true ->
  exists y m d,
    Dates.parse_iso iso = Some (y, m, d) /\
    label_of (JStr iso) =
      Dates.percent_a (Dates.weekday y m d) ++ " " ++ substring 8 2 iso.
Proof.
  unfold Dates.is_iso_date, label_of.
  destruct (Dates.parse_iso iso) as [[[y m] d]|] eqn:Hparse; [|discriminate].
  intros _. exists y, m, d. split; [reflexivity|].
  unfold Dates.strftime_a_d, Dates.label.
  now rewrite (parse_iso_day _ _ _ _ Hparse).
Qed.

Example ordinal_epoch : Dates.ordinal 1970 1 1 = 719163.
Proof. reflexivity. Qed.

Example label_2024_01_15 :
  Dates.to_datetime_strftime (fun _ => Raise ValueError) (JStr "2024-01-15")
  = Ok "Mon 15".
Proof. vm_compute. reflexivity. Qed.

Example label_leap_day :
  Dates.to_datetime_strftime (fun _ => Raise ValueError) (JStr "2000-02-29")
  = Ok "Tue 29".
Proof. vm_compute. reflexivity. Qed.

Lemma nth_error_map_seq {B} (f : nat -> B) (n i : nat) :
  (i < n)%nat -> nth_error (map f (seq 0 n)) i = Some (f i).
Proof.
  intros Hi. rewrite nth_error_map.
  rewrite (nth_error_nth' (seq 0 n) 0%nat) by (now rewrite length_seq).
  cbn. now rewrite seq_nth.
Qed.

(** *** The weekday, against the reference *)

Lemma leap_step (y : Z) :
  y / 4 - y / 100 + y / 400 =
  (y - 1) / 4 - (y - 1) / 100 + (y - 1) / 400
  + (if Dates.is_leap y then 1 else 0).
Proof.
  unfold Dates.is_leap.
  destruct (Z.eqb_spec (y mod 4) 0), (Z.eqb_spec (y mod 100) 0),
    (Z.eqb_spec (y mod 400) 0); cbn; Z.div_mod_to_equations; lia.
Qed.

Ltac each_month m :=
  let H := fresh "Hmonth" in
  assert (H : m = 1 \/ m = 2 \/ m = 3 \/ m = 4 \/ m = 5 \/ m = 6 \/
              m = 7 \/ m = 8 \/ m = 9 \/ m = 10 \/ m = 11 \/ m = 12)
    by lia;
  destruct H as [-> | [-> | [-> | [-> | [-> | [-> | [-> | [-> |
                [-> | [-> | [-> | ->]]]]]]]]]]].

Lemma days_before_month_value (y m : Z) :
  1 <= m <= 12 ->
  Dates.days_before_month y (Z.to_nat (m - 1)) =
  nth (Z.to_nat (m - 1))
    [0; 31; 59; 90; 120; 151; 181; 212; 243; 273; 304; 334] 0
  + (if (3 <=? m) && Dates.is_leap y then 1 else 0).
Proof.
  intros Hm. each_month m;
    cbv -[Dates.is_leap]; destruct (Dates.is_leap y); reflexivity.
Qed.

(** [Dates.weekday] (Monday 0) and the reference (Sunday 0) name the
    same day, in every year. *)
Lemma weekday_reference (y m d : Z) :
  1 <= m <= 12 ->
  Dates.weekday y m d = (Reference.day_of_week y m d + 6) mod 7.
Proof.
  intros Hm. unfold Dates.weekday, Reference.day_of_week, Dates.ordinal,
    Dates.days_before_year, Reference.month_offset.
  rewrite Z.add_mod_idemp_l by lia.
  rewrite (days_before_month_value y m Hm).
  pose proof (leap_step y) as Hleap.
  each_month m;
    repeat match goal with
    | |- context [nth (Z.to_nat ?e) ?l ?d] =>
        let v := eval vm_compute in (nth (Z.to_nat e) l d) in
        change (nth (Z.to_nat e) l d) with v
    end;
    cbn [Z.ltb Z.leb Z.compare Pos.compare Pos.compare_cont andb];
    destruct (Dates.is_leap y);
    Z.div_mod_to_equations; lia.
Qed.

Lemma day_names_agree (h : Z) :
  0 <= h < 7 ->
  nth (Z.to_nat ((h + 6) mod 7)) Dates.abbreviations "" =
  nth (Z.to_nat h) ["Sun"; "Mon"; "Tue"; "Wed"; "Thu"; "Fri"; "Sat"] "".
Proof.
  intros Hh.
  assert (Hcases : h = 0 \/ h = 1 \/ h = 2 \/ h = 3 \/ h = 4 \/ h = 5 \/
                   h = 6) by lia.
  destruct Hcases as [-> | [-> | [-> | [-> | [-> | [-> | ->]]]]]];
    reflexivity.
Qed.

Lemma percent_a_reference (y m d : Z) :
  1 <= m <= 12 ->
  Dates.percent_a (Dates.weekday y m d) = Reference.day_name y m d.
Proof.
  intros Hm. unfold Dates.percent_a, Reference.day_name.
  rewrite (weekday_reference y m d Hm).
  apply day_names_agree. unfold Reference.day_of_week.
  apply Z.mod_pos_bound. lia.
Qed.

Lemma parse_iso_month (iso : string) (y m d : Z) :
  Dates.parse_iso iso = Some (y, m, d) -> 1 <= m <= 12.
Proof.
  unfold Dates.parse_iso.
  destruct (list_ascii_of_string iso)
    as [|y1 [|y2 [|y3 [|y4 [|s1 [|m1 [|m2 [|s2 [|d1 [|d2 [|extra rest]]]]]]]]]]];
    try discriminate.
  destruct (_ && _); [|discriminate].
  destruct (Dates.number_of [y1; y2; y3; y4] 0) as [y'|]; [|discriminate].
  destruct (Dates.number_of [m1; m2] 0) as [m'|]; [|discriminate].
  destruct (Dates.number_of [d1; d2] 0) as [d'|]; [|discriminate].
  destruct (Dates.valid_date y' m' d') eqn:Hvalid; [|discriminate].
  intros [= _ <- _]. unfold Dates.valid_date in Hvalid.
  repeat (apply andb_prop in Hvalid as [Hvalid ?]).
  split; now apply Z.leb_le.
Qed.

(** *** The two digits of [%d], read back *)

Lemma digit_value_digit (k : Z) :
  Dates.digit_value (Format.digit k) = Some (k mod 10).
Proof.
  unfold Dates.digit_value, Format.digit.
  pose proof (Z.mod_pos_bound k 10 ltac:(lia)) as Hk.
  rewrite nat_ascii_embedding by lia.
  replace (Z.of_nat (48 + Z.to_nat (k mod 10))) with (48 + k mod 10) by lia.
  destruct (Z.leb_spec 48 (48 + k mod 10)); [|lia].
  destruct (Z.leb_spec (48 + k mod 10) 57); [|lia].
  cbn [andb]. f_equal. lia.
Qed.

Lemma percent_d_read (d : Z) :
  0 <= d <= 99 ->
  Dates.number_of (list_ascii_of_string (Dates.percent_d d)) 0 = Some d.
Proof.
  intros Hd. unfold Dates.percent_d.
  cbv beta iota fix delta [list_ascii_of_string Dates.number_of].
  rewrite !digit_value_digit. f_equal.
  Z.div_mod_to_equations. lia.
Qed.

(** *** The forecast when pandas reads every time element *)

Section ForecastRead.
Variable env : environment.
Variables latitude longitude : json.
Variables fields daily : list (string * json).
Variables times maxs mins codes : list json.
Hypothesis response :
  env (forecast_daily latitude longitude) = Body (JObj fields).
Hypothesis has_daily : Py.assoc "daily" fields = Some (JObj daily).
Hypothesis has_time : Py.assoc "time" daily = Some (JArr times).
Hypothesis has_max :
  Py.assoc "temperature_2m_max" daily = Some (JArr maxs).
Hypothesis has_min :
  Py.assoc "temperature_2m_min" daily = Some (JArr mins).
Hypothesis has_code : Py.assoc "weathercode" daily = Some (JArr codes).
Hypothesis readable :
  forall t, In t times ->
    exists date, Dates.to_datetime (timestamp_other env) t = Ok date.

Lemma forecast_entry_read (i : nat) :
  (i < List.length times)%nat ->
  (i < List.length maxs)%nat ->
  (i < List.length mins)%nat ->
  (i < List.length codes)%nat ->
  forecast_entry env (JObj fields) i
  = Ok (entry_read env times maxs mins codes i).
Proof.
  intros Ht Ha Hb Hc. unfold forecast_entry, entry_read, read_label.
  cbn -[Py.assoc Py.getindex]. rewrite has_daily.
  cbn -[Py.assoc Py.getindex]. rewrite has_time, has_max, has_min, has_code.
  cbn -[Py.assoc Py.getindex].
  rewrite (getindex_arr times i Ht). cbn -[Py.assoc Py.getindex].
  destruct (readable (nth i times JNull) (nth_In _ _ Ht)) as [date Hdate].
  unfold Dates.to_datetime_strftime. rewrite Hdate.
  cbn -[Py.assoc Py.getindex].
  rewrite (getindex_arr maxs i Ha), (getindex_arr mins i Hb),
    (getindex_arr codes i Hc).
  reflexivity.
Qed.

Lemma get_weather_forecast_read (s : app_state) :
  (List.length times <= List.length maxs)%nat ->
  (List.length times <= List.length mins)%nat ->
  (List.length times <= List.length codes)%nat ->
  runs (get_weather_forecast env latitude longitude) s
    (Some (map (entry_read env times maxs mins codes)
             (seq 0 (List.length times))))
    (location_data s) [] [forecast_daily latitude longitude].
Proof.
  intros Ha Hb Hc. unfold runs.
  rewrite (get_weather_forecast_unfold env latitude longitude fields daily
             times response has_daily has_time).
  rewrite (for_range_all_ok _ (entry_read env times maxs mins codes)).
  - now rewrite app_nil_r.
  - intros i Hi. apply forecast_entry_read; lia.
Qed.
End ForecastRead.

(** The condition on the time array is needed: the first element pandas
    does not read ends the call with pandas' exception. *)
Lemma get_weather_forecast_unreadable
    (env : environment) (lat lon : json) (s : app_state)
    (fields daily : list (string * json))
    (times maxs mins codes : list json) (k : nat) (e : exn) :
  env (forecast_daily lat lon) = Body (JObj fields) ->
  Py.assoc "daily" fields = Some (JObj daily) ->
  Py.assoc "time" daily = Some (JArr times) ->
  Py.assoc "temperature_2m_max" daily = Some (JArr maxs) ->
  Py.assoc "temperature_2m_min" daily = Some (JArr mins) ->
  Py.assoc "weathercode" daily = Some (JArr codes) ->
  (List.length times <= List.length maxs)%nat ->
  (List.length times <= List.length mins)%nat ->
  (List.length times <= List.length codes)%nat ->
  (k < List.length times)%nat ->
  (forall i, (i < k)%nat ->
     exists date,
       Dates.to_datetime (timestamp_other env) (nth i times JNull) = Ok date) ->
  Dates.to_datetime (timestamp_other env) (nth k times JNull) = Raise e ->
  fst (get_weather_forecast env lat lon s) = Raise e.
Proof.
  intros Henv Hdaily Htime Hmax Hmin Hcode Ha Hb Hc Hk Hbefore Hbad.
  rewrite (get_weather_forecast_unfold env lat lon fields daily times
             Henv Hdaily Htime).
  rewrite (for_range_first_raise _ (entry_read env times maxs mins codes)
             e _ 0 k); [reflexivity|lia| |].
  - intros i Hi. destruct (Hbefore i ltac:(lia)) as [date Hdate].
    unfold forecast_entry, entry_read, read_label.
    cbn -[Py.assoc Py.getindex]. rewrite Hdaily.
    cbn -[Py.assoc Py.getindex]. rewrite Htime, Hmax, Hmin, Hcode.
    cbn -[Py.assoc Py.getindex].
    rewrite (getindex_arr times i) by lia. cbn -[Py.assoc Py.getindex].
    unfold Dates.to_datetime_strftime. rewrite Hdate.
    cbn -[Py.assoc Py.getindex].
    rewrite (getindex_arr maxs i), (getindex_arr mins i),
      (getindex_arr codes i) by lia.
    reflexivity.
  - unfold forecast_entry.
    cbn -[Py.assoc Py.getindex]. rewrite Hdaily.
    cbn -[Py.assoc Py.getindex]. rewrite Htime.
    cbn -[Py.assoc Py.getindex].
    rewrite (getindex_arr times k Hk). cbn -[Py.assoc Py.getindex].
    unfold Dates.to_datetime_strftime. now rewrite Hbad.
Qed.

(** C5. When the four daily arrays all hold five elements, the time array
    holding dates (values [pd.to_datetime] reads), [get_weather_forecast]
    returns five entries. Entry [i] carries the values at index [i] of the
    three data arrays and, as its date, a weekday abbreviation, a space
    and two digits: the weekday is the one the calendar gives the date
    read from [time[i]] and the digits are its day of the month; for an
    ISO date they are the two day digits as written. *)
Theorem get_weather_forecast_five
    (env : environment) (lat lon : json) (s : app_state)
    (fields daily : list (string * json))
    (times maxs mins codes : list json) :
  env (forecast_daily lat lon) = Body (JObj fields) ->
  Py.assoc "daily" fields = Some (JObj daily) ->
  Py.assoc "time" daily = Some (JArr times) ->
  Py.assoc "temperature_2m_max" daily = Some (JArr maxs) ->
  Py.assoc "temperature_2m_min" daily = Some (JArr mins) ->
  Py.assoc "weathercode" daily = Some (JArr codes) ->
  List.length times = 5%nat ->
  List.length maxs = 5%nat ->
  List.length mins = 5%nat ->
  List.length codes = 5%nat ->
  (forall t, In t times ->
     exists date, Dates.to_datetime (timestamp_other env) t = Ok date) ->
  exists forecast,
    runs (get_weather_forecast env lat lon) s (Some forecast)
      (location_data s) [] [forecast_daily lat lon] /\
    List.length forecast = 5%nat /\
    forall i t a b c,
      nth_error times i = Some t ->
      nth_error maxs i = Some a ->
      nth_error mins i = Some b ->
      nth_error codes i = Some c ->
      exists y m d wd dd,
        Dates.to_datetime (timestamp_other env) t = Ok (y, m, d) /\
        nth_error forecast i =
          Some {| date := wd ++ " " ++ dd;
                  temperature_max := a;
                  temperature_min := b;
                  weathercode := c |} /\
        In wd ["Mon"; "Tue"; "Wed"; "Thu"; "Fri"; "Sat"; "Sun"] /\
        String.length dd = 2%nat /\
        all_digits dd = true /\
        (1 <= m <= 12 -> wd = Reference.day_name y m d) /\
        (0 <= d <= 99 ->
         Dates.number_of (list_ascii_of_string dd) 0 = Some d) /\
        (forall iso,
           t = JStr iso -> Dates.is_iso_date t = true ->
           Dates.parse_iso iso = Some (y, m, d) /\
           wd = Reference.day_name y m d /\
           dd = substring 8 2 iso).
Proof.
  intros Henv Hdaily Htime Hmax Hmin Hcode Ht Ha Hb Hc Hread.
  exists (map (entry_read env times maxs mins codes)
            (seq 0 (List.length times))).
  split; [|split].
  - apply (get_weather_forecast_read env lat lon fields daily
             times maxs mins codes Henv Hdaily Htime Hmax Hmin Hcode Hread);
      lia.
  - now rewrite length_map, length_seq.
  - intros i t a b c Hti Hai Hbi Hci.
    assert (Hi : (i < List.length times)%nat)
      by (apply nth_error_Some; congruence).
    destruct (Hread t (nth_error_In _ _ Hti)) as [[[y m] d] Hdate].
    exists y, m, d, (Dates.percent_a (Dates.weekday y m d)),
      (Dates.percent_d d).
    split; [exact Hdate|]. split; [|split; [|split; [|split; [|split; [|split]]]]].
    + rewrite nth_error_map_seq by assumption.
      unfold entry_read, read_label.
      rewrite (nth_error_nth _ _ JNull Hti), (nth_error_nth _ _ JNull Hai),
        (nth_error_nth _ _ JNull Hbi), (nth_error_nth _ _ JNull Hci).
      now rewrite Hdate.
    + apply percent_a_in.
    + reflexivity.
    + unfold Dates.percent_d.
      pose proof (digit_is_digit (d / 10)) as H1.
      pose proof (digit_is_digit d) as H2.
      cbn [all_digits] in *. rewrite andb_true_r in H1, H2.
      now rewrite H1, H2.
    + intros Hm. now apply percent_a_reference.
    + apply percent_d_read.
    + intros iso -> Hiso. unfold Dates.is_iso_date in Hiso.
      unfold Dates.to_datetime in Hdate.
      destruct (Dates.parse_iso iso) as [parsed|] eqn:Hparse; [|discriminate].
      injection Hdate as ->. split; [reflexivity|]. split.
      * apply percent_a_reference. exact (parse_iso_month _ _ _ _ Hparse).
      * exact (parse_iso_day _ _ _ _ Hparse).
Qed.

Ltac closed_entry Hnth i iso :=
  let Hentry := fresh "Hentry" in
  let Hiso := fresh "Hiso" in
  let Hparse := fresh "Hparse" in
  destruct (Hnth i _ _ _ _ eq_refl eq_refl eq_refl eq_refl)
    as (? & ? & ? & ? & ? & _ & Hentry & _ & _ & _ & _ & _ & Hiso);
  destruct (Hiso iso eq_refl eq_refl) as (Hparse & -> & ->);
  vm_compute in Hparse; injection Hparse as <- <- <-;
  cbn [nth_error] in Hentry; injection Hentry as ->.

Lemma get_weather_forecast_five_witness :
  fst (get_weather_forecast
         (answering (fun _ => Body (forecast_body turn_times five_maxs
                                      five_mins five_codes)))
         (latitude paris) (longitude paris) fresh)
  = Ok (Some
      [ {| date := "Mon 30"; temperature_max := JFloat 0x1.4p+2;
           temperature_min := JFloat (-0x1p+0); weathercode := JInt 3 |};
        {| date := "Tue 31"; temperature_max := JFloat 0x1.8p+2;
           temperature_min := JFloat 0x0p+0; weathercode := JInt 61 |};
        {| date := "Wed 01"; temperature_max := JFloat 0x1.cp+2;
           temperature_min := JFloat 0x1p+0; weathercode := JInt 71 |};
        {| date := "Thu 02"; temperature_max := JFloat 0x1p+3;
           temperature_min := JFloat 0x1p+1; weathercode := JInt 95 |};
        {| date := "Fri 03"; temperature_max := JFloat 0x1.2p+3;
           temperature_min := JFloat 0x1.8p+1; weathercode := JInt 0 |} ]).
Proof.
  destruct (get_weather_forecast_five
              (answering (fun _ => Body (forecast_body turn_times five_maxs
                                           five_mins five_codes)))
              (latitude paris) (longitude paris) fresh
              [ ("latitude", JFloat 0x1.86db22d0e5604p+5);
                ("daily", JObj (daily_block turn_times five_maxs five_mins
                                  five_codes)) ]
              (daily_block turn_times five_maxs five_mins five_codes)
              turn_times five_maxs five_mins five_codes
              eq_refl eq_refl eq_refl eq_refl eq_refl eq_refl
              eq_refl eq_refl eq_refl eq_refl)
    as (forecast & Hrun & Hlen & Hnth).
  { intros t Hin. cbn in Hin.
    destruct Hin as [<- | [<- | [<- | [<- | [<- | []]]]]];
      eexists; vm_compute; reflexivity. }
  unfold runs in Hrun. rewrite Hrun. cbn [fst]. do 2 apply f_equal.
  destruct forecast as [|e0 [|e1 [|e2 [|e3 [|e4 [|e5 rest]]]]]];
    try discriminate Hlen.
  closed_entry Hnth 0%nat "2024-12-30".
  closed_entry Hnth 1%nat "2024-12-31".
  closed_entry Hnth 2%nat "2025-01-01".
  closed_entry Hnth 3%nat "2025-01-02".
  closed_entry Hnth 4%nat "2025-01-03".
  reflexivity.
Defined.

Example five_day_forecast :
  fst (get_weather_forecast
         (answering (fun _ => Body (forecast_body five_times five_maxs five_mins
                           five_codes)))
         (latitude paris) (longitude paris) fresh)
  = Ok (Some
      [ {| date := "Mon 15"; temperature_max := JFloat 0x1.4p+2;
           temperature_min := JFloat (-0x1p+0); weathercode := JInt 3 |};
        {| date := "Tue 16"; temperature_max := JFloat 0x1.8p+2;
           temperature_min := JFloat 0x0p+0; weathercode := JInt 61 |};
        {| date := "Wed 17"; temperature_max := JFloat 0x1.cp+2;
           temperature_min := JFloat 0x1p+0; weathercode := JInt 71 |};
        {| date := "Thu 18"; temperature_max := JFloat 0x1p+3;
           temperature_min := JFloat 0x1p+1; weathercode := JInt 95 |};
        {| date := "Fri 19"; temperature_max := JFloat 0x1.2p+3;
           temperature_min := JFloat 0x1.8p+1; weathercode := JInt 0 |} ]).
Proof. vm_compute. reflexivity. Qed.

(** C2 (as the code has it). With daily arrays of unequal lengths, the
    dates being ISO calendar dates, [get_weather_forecast] builds one entry
    per element of [time]: when no other array is shorter than [time] it
    returns [len(time)] entries, entry [i] read at index [i] of each array
    and the surplus ignored; when some other array is shorter than [time]
    it raises [IndexError]. It does not truncate to the shortest array. *)
Theorem get_weather_forecast_follows_time
    (env : environment) (lat lon : json) (s : app_state)
    (fields daily : list (string * json))
    (times maxs mins codes : list json) :
  env (forecast_daily lat lon) = Body (JObj fields) ->
  Py.assoc "daily" fields = Some (JObj daily) ->
  Py.assoc "time" daily = Some (JArr times) ->
  Py.assoc "temperature_2m_max" daily = Some (JArr maxs) ->
  Py.assoc "temperature_2m_min" daily = Some (JArr mins) ->
  Py.assoc "weathercode" daily = Some (JArr codes) ->
  forallb Dates.is_iso_date times = true ->
  ((List.length times <= List.length maxs)%nat ->
   (List.length times <= List.length mins)%nat ->
   (List.length times <= List.length codes)%nat ->
   exists forecast,
     runs (get_weather_forecast env lat lon) s (Some forecast)
       (location_data s) [] [forecast_daily lat lon] /\
     List.length forecast = List.length times /\
     forall i, (i < List.length times)%nat ->
       nth_error forecast i = Some (entry_at times maxs mins codes i)) /\
  ((List.length maxs < List.length times)%nat \/
   (List.length mins < List.length times)%nat \/
   (List.length codes < List.length times)%nat ->
   fst (get_weather_forecast env lat lon s) = Raise IndexError).
Proof.
  intros Hnet Hdaily Htime Hmax Hmin Hcode Hdates. split.
  - intros Ha Hb Hc.
    exists (map (entry_at times maxs mins codes) (seq 0 (List.length times))).
    split; [|split].
    + now apply (get_weather_forecast_long_enough env lat lon fields daily
                   times maxs mins codes).
    + now rewrite length_map, length_seq.
    + intros i Hi. now apply nth_error_map_seq.
  - now apply (get_weather_forecast_too_short env lat lon fields daily
                 times maxs mins codes).
Qed.

Lemma get_weather_forecast_follows_time_witness :
  (exists forecast,
     runs (get_weather_forecast (answering (fun _ => Body long_data_body))
             (latitude paris) (longitude paris))
       fresh (Some forecast) None []
       [forecast_daily (latitude paris) (longitude paris)] /\
     List.length forecast = 2%nat) /\
  fst (get_weather_forecast (answering (fun _ => Body short_max_body))
         (latitude paris) (longitude paris) fresh) = Raise IndexError.
Proof.
  split.
  - destruct (proj1 (get_weather_forecast_follows_time
                (answering (fun _ => Body long_data_body))
                (latitude paris) (longitude paris) fresh
                [ ("latitude", JFloat 0x1.86db22d0e5604p+5);
                  ("daily", JObj (daily_block
                     [JStr "2024-01-15"; JStr "2024-01-16"]
                     [JFloat 0x1.4p+2; JFloat 0x1.8p+2; JFloat 0x1.cp+2]
                     [JFloat (-0x1p+0); JFloat 0x0p+0; JFloat 0x1p+0]
                     [JInt 3; JInt 61; JInt 71])) ]
                (daily_block
                   [JStr "2024-01-15"; JStr "2024-01-16"]
                   [JFloat 0x1.4p+2; JFloat 0x1.8p+2; JFloat 0x1.cp+2]
                   [JFloat (-0x1p+0); JFloat 0x0p+0; JFloat 0x1p+0]
                   [JInt 3; JInt 61; JInt 71])
                _ _ _ _
                eq_refl eq_refl eq_refl eq_refl eq_refl eq_refl eq_refl))
      as [forecast [Hrun [Hlen _]]]; [cbn; lia ..|].
    exists forecast. split; assumption.
  - apply (proj2 (get_weather_forecast_follows_time
                (answering (fun _ => Body short_max_body))
                (latitude paris) (longitude paris) fresh
                [ ("latitude", JFloat 0x1.86db22d0e5604p+5);
                  ("daily", JObj (daily_block
                     [JStr "2024-01-15"; JStr "2024-01-16"]
                     [JFloat 0x1.4p+2]
                     [JFloat (-0x1p+0); JFloat 0x0p+0]
                     [JInt 3; JInt 61])) ]
                (daily_block
                   [JStr "2024-01-15"; JStr "2024-01-16"]
                   [JFloat 0x1.4p+2]
                   [JFloat (-0x1p+0); JFloat 0x0p+0]
                   [JInt 3; JInt 61])
                _ _ _ _
                eq_refl eq_refl eq_refl eq_refl eq_refl eq_refl eq_refl)).
    left. cbn. lia.
Defined.

(** C2 fails as stated: with two dates and one maximum temperature the
    shortest array has one element, yet no one-entry forecast comes back;
    the call raises [IndexError]. *)
Lemma get_weather_forecast_no_truncation :
  fst (get_weather_forecast (answering (fun _ => Body short_max_body))
         (latitude paris) (longitude paris) fresh) = Raise IndexError /\
  ~ (exists forecast,
       fst (get_weather_forecast (answering (fun _ => Body short_max_body))
              (latitude paris) (longitude paris) fresh)
       = Ok (Some forecast) /\ List.length forecast = 1%nat).
Proof.
  assert (H : fst (get_weather_forecast (answering (fun _ => Body short_max_body))
                     (latitude paris) (longitude paris) fresh)
              = Raise IndexError) by (vm_compute; reflexivity).
  split; [exact H|].
  intros (forecast & Hok & _). rewrite H in Hok. discriminate.
Qed.

(* ------------------------------------------------------------------ *)
(** ** Current conditions and the display block *)

Section CurrentWeather.
Variable env : environment.
Variables lat lon : json.

Lemma get_weather_data_transport_error (s : app_state) (e : string) :
  env (forecast_current lat lon) = RequestException e ->
  runs (get_weather_data env lat lon) s JNull (location_data s)
    [St.error ("Error fetching weather data: " ++ e)]
    [forecast_current lat lon].
Proof.
  intros Hnet. unfold runs, get_weather_data, bind, requests_get, st, ret.
  now rewrite Hnet.
Qed.

Lemma get_weather_data_block (s : app_state)
    (fields : list (string * json)) (block : json) :
  env (forecast_current lat lon) = Body (JObj fields) ->
  Py.assoc "current_weather" fields = Some block ->
  runs (get_weather_data env lat lon) s block (location_data s) []
    [forecast_current lat lon].
Proof.
  intros Hnet Hblock.
  unfold runs, get_weather_data, bind, requests_get, lift, ret.
  rewrite Hnet. cbn -[Py.assoc]. rewrite Hblock. cbn.
  now rewrite app_nil_r.
Qed.

Lemma get_weather_data_no_block (s : app_state)
    (fields : list (string * json)) :
  env (forecast_current lat lon) = Body (JObj fields) ->
  Py.assoc "current_weather" fields = None ->
  runs (get_weather_data env lat lon) s JNull (location_data s) []
    [forecast_current lat lon].
Proof.
  intros Hnet Hblock.
  unfold runs, get_weather_data, bind, requests_get, lift, ret.
  rewrite Hnet. cbn -[Py.assoc]. rewrite Hblock. cbn.
  now rewrite app_nil_r.
Qed.
End CurrentWeather.

(** The display block up to the test [if weather_data:], for a session
    that holds [loc]. *)
Lemma display_unfold (env : environment) (s : app_state) (loc : location) :
  location_data s = Some loc ->
  display env s =
  bind (get_weather_data env (latitude loc) (longitude loc))
    (fun weather_data =>
       if Py.truthy weather_data then
         temp <- lift (Py.getitem weather_data "temperature") ;;
         wind <- lift (Py.getitem weather_data "windspeed") ;;
         weather_code <- lift (Py.getitem weather_data "weathercode") ;;
         '(symbol, description) <- lift (WEATHER_SYMBOLS_get weather_code) ;;
         st (St.markdown St.style_sheet) ;;
         st (St.markdown (St.temperature_card temp)) ;;
         st (St.markdown (St.wind_card wind)) ;;
         st (St.markdown (St.condition_card symbol description)) ;;
         get_weather_animation weather_code ;;
         st (St.subheader [Lit "📍 Location Map"]) ;;
         st (St.map (latitude loc) (longitude loc)) ;;
         st (St.subheader [Lit "📅 5-Day Weather Forecast"]) ;;
         forecast_data <- get_weather_forecast env (latitude loc) (longitude loc) ;;
         match forecast_data with
         | Some (day :: days) => forecast_cards (firstn 5 (day :: days))
         | _ => st (St.warning "Could not retrieve forecast data.")
         end
       else
         st (St.error "Could not retrieve weather data for this location."))
    {| location_data := Some loc;
       calls := calls s ++
                [St.subheader [Lit "Weather for "; Fmt (name loc); Lit ", ";
                               Fmt (country loc)]];
       requests := requests s |}.
Proof.
  intros Hloc. unfold display at 1, bind at 1, get_location_data.
  rewrite Hloc. unfold bind at 1, st. rewrite Hloc. reflexivity.
Qed.

(** C3 (as the code has it). For a session that holds a location, a
    failed current-weather fetch ends the display block: the forecast is
    neither requested nor shown. A transport failure puts two error lines
    on the page, the one of [get_weather_data] and the one of the display
    block; a response without the [current_weather] block puts one. *)
Theorem display_current_failure
    (env : environment) (s : app_state) (loc : location) :
  location_data s = Some loc ->
  let heading :=
    St.subheader [Lit "Weather for "; Fmt (name loc); Lit ", ";
                  Fmt (country loc)] in
  (forall e,
     env (forecast_current (latitude loc) (longitude loc))
       = RequestException e ->
     runs (display env) s tt (Some loc)
       [heading;
        St.error ("Error fetching weather data: " ++ e);
        St.error "Could not retrieve weather data for this location."]
       [forecast_current (latitude loc) (longitude loc)]) /\
  (forall fields,
     env (forecast_current (latitude loc) (longitude loc))
       = Body (JObj fields) ->
     Py.assoc "current_weather" fields = None ->
     runs (display env) s tt (Some loc)
       [heading;
        St.error "Could not retrieve weather data for this location."]
       [forecast_current (latitude loc) (longitude loc)]).
Proof.
  intros Hloc heading. split.
  - intros e Hnet. unfold runs. rewrite (display_unfold env s loc Hloc).
    unfold bind at 1.
    rewrite (get_weather_data_transport_error env _ _ _ e Hnet).
    unfold st. cbn. now rewrite <- !app_assoc.
  - intros fields Hnet Hblock. unfold runs.
    rewrite (display_unfold env s loc Hloc). unfold bind at 1.
    rewrite (get_weather_data_no_block env _ _ _ fields Hnet Hblock).
    unfold st. cbn. now rewrite app_nil_r, <- !app_assoc.
Qed.

Lemma display_current_failure_witness :
  runs (display current_down) (resolved paris) tt (Some paris)
    [St.subheader [Lit "Weather for "; Fmt (JStr "Paris"); Lit ", ";
                   Fmt (JStr "France")];
     St.error "Error fetching weather data: Read timed out.";
     St.error "Could not retrieve weather data for this location."]
    [forecast_current (latitude paris) (longitude paris)].
Proof.
  exact (proj1 (display_current_failure current_down (resolved paris) paris
                  eq_refl) "Read timed out." eq_refl).
Defined.

(** C3 fails as stated: the same forecast response that fills five cards
    when the current-weather fetch succeeds is not even requested when
    that fetch fails, and two error lines are shown, not one. *)
Lemma display_forecast_depends_on_current :
  let up := snd (display all_up (resolved paris)) in
  let down := snd (display current_down (resolved paris)) in
  List.length (filter St.is_forecast_card (calls up)) = 5%nat /\
  existsb is_forecast_daily (requests up) = true /\
  List.length (filter St.is_forecast_card (calls down)) = 0%nat /\
  existsb is_forecast_daily (requests down) = false /\
  List.length (filter St.is_error (calls down)) = 2%nat.
Proof. vm_compute. repeat split. Qed.

(** C4 (as the code has it). [get_weather_data] returns [None] when the
    response has no [current_weather] block and returns the block as it
    came when the response has one, whatever the block holds: it does not
    look for the temperature, the wind speed or the weather code. *)
Theorem get_weather_data_returns_block
    (env : environment) (lat lon : json) (s : app_state)
    (fields : list (string * json)) :
  env (forecast_current lat lon) = Body (JObj fields) ->
  (forall block,
     Py.assoc "current_weather" fields = Some block ->
     runs (get_weather_data env lat lon) s block (location_data s) []
       [forecast_current lat lon]) /\
  (Py.assoc "current_weather" fields = None ->
     runs (get_weather_data env lat lon) s JNull (location_data s) []
       [forecast_current lat lon]).
Proof.
  intros Hnet. split.
  - intros block Hblock.
    exact (get_weather_data_block env lat lon s fields block Hnet Hblock).
  - intros Hblock.
    exact (get_weather_data_no_block env lat lon s fields Hnet Hblock).
Qed.

Lemma get_weather_data_returns_block_witness :
  runs (get_weather_data no_code_net (latitude paris) (longitude paris))
    fresh no_code_block None []
    [forecast_current (latitude paris) (longitude paris)].
Proof.
  exact (proj1 (get_weather_data_returns_block no_code_net
                  (latitude paris) (longitude paris) fresh
                  [("current_weather", no_code_block)] eq_refl)
           no_code_block eq_refl).
Defined.

(** C4 fails as stated: a block without the weather code is returned, not
    [None], and the display block then raises [KeyError] where it reads
    the code. *)
Lemma get_weather_data_keeps_partial_block :
  fst (get_weather_data no_code_net (latitude paris) (longitude paris) fresh)
    = Ok no_code_block /\
  no_code_block <> JNull /\
  fst (display no_code_net (resolved paris))
    = Raise (KeyError (JStr "weathercode")).
Proof.
  split; [vm_compute; reflexivity|].
  split; [discriminate|vm_compute; reflexivity].
Qed.

(* ================================================================== *)
(** * Further properties of the script *)

(* ------------------------------------------------------------------ *)
(** ** Outcomes that do not depend on the session *)

Section Yields.
Context {A B : Type}.

Lemma yields_ret (a : A) : yields (ret a) (Ok a) [] [].
Proof. intros [slot shown sent]. unfold ret. cbn. now rewrite !app_nil_r. Qed.

Lemma yields_lift (r : result A) : yields (lift r) r [] [].
Proof. intros [slot shown sent]. unfold lift. cbn. now rewrite !app_nil_r. Qed.

Lemma yields_bind_ok (c : M A) (k : A -> M B) (a : A) (r : result B)
    (shown1 shown2 : list St.call) (sent1 sent2 : list request) :
  yields c (Ok a) shown1 sent1 ->
  yields (k a) r shown2 sent2 ->
  yields (bind c k) r (shown1 ++ shown2) (sent1 ++ sent2).
Proof.
  intros Hc Hk s. unfold bind. rewrite Hc, Hk. cbn.
  now rewrite !app_assoc.
Qed.

Lemma yields_bind_raise (c : M A) (k : A -> M B) (e : exn)
    (shown : list St.call) (sent : list request) :
  yields c (Raise e) shown sent ->
  yields (bind c k) (Raise e) shown sent.
Proof. intros Hc s. unfold bind. now rewrite Hc. Qed.

Lemma quiet_ret (a : A) : quiet (ret a).
Proof. exists (Ok a), []. apply yields_ret. Qed.

Lemma quiet_lift (r : result A) : quiet (lift r).
Proof. exists r, []. apply yields_lift. Qed.

Lemma quiet_bind (c : M A) (k : A -> M B) :
  quiet c -> (forall a, quiet (k a)) -> quiet (bind c k).
Proof.
  intros (r & shown & Hc) Hk. destruct r as [a|e].
  - destruct (Hk a) as (r' & shown' & Hka).
    exists r', (shown ++ shown')%list.
    exact (yields_bind_ok c k a r' shown shown' [] [] Hc Hka).
  - exists (Raise e), shown. now apply yields_bind_raise.
Qed.

Lemma asks_bind (c : M A) (k : A -> M B) (req : request) :
  asks c req -> (forall a, quiet (k a)) -> asks (bind c k) req.
Proof.
  intros (r & shown & Hc) Hk. destruct r as [a|e].
  - destruct (Hk a) as (r' & shown' & Hka).
    exists r', (shown ++ shown')%list.
    exact (yields_bind_ok c k a r' shown shown' [req] [] Hc Hka).
  - exists (Raise e), shown. now apply yields_bind_raise.
Qed.

Lemma at_most_bind (c : M A) (k : A -> M B) (req : request) :
  quiet c -> (forall a, at_most (k a) req) -> at_most (bind c k) req.
Proof.
  intros (r & shown & Hc) Hk. destruct r as [a|e].
  - destruct (Hk a) as (r' & shown' & [Hka|Hka]);
      exists r', (shown ++ shown')%list; [left|right].
    + exact (yields_bind_ok c k a r' shown shown' [] [] Hc Hka).
    + exact (yields_bind_ok c k a r' shown shown' [] [req] Hc Hka).
  - exists (Raise e), shown. left. now apply yields_bind_raise.
Qed.
End Yields.

Lemma yields_st (c : St.call) : yields (st c) (Ok tt) [c] [].
Proof. intros [slot shown sent]. unfold st. cbn. now rewrite app_nil_r. Qed.

Lemma quiet_st (c : St.call) : quiet (st c).
Proof. exists (Ok tt), [c]. apply yields_st. Qed.

Lemma yields_requests_get (env : environment) (req : request) :
  yields (requests_get env req) (Ok (env req)) [] [req].
Proof.
  intros [slot shown sent]. unfold requests_get. cbn. now rewrite app_nil_r.
Qed.

Lemma asks_requests_get (env : environment) (req : request) :
  asks (requests_get env req) req.
Proof. exists (Ok (env req)), []. apply yields_requests_get. Qed.

Lemma at_most_quiet {A} (c : M A) (req : request) :
  quiet c -> at_most c req.
Proof. intros (r & shown & Hc). exists r, shown. now left. Qed.

Lemma at_most_asks {A} (c : M A) (req : request) :
  asks c req -> at_most c req.
Proof. intros (r & shown & Hc). exists r, shown. now right. Qed.

(** Script code built from [ret], [lift], [st], [bind] and branching
    sends nothing. *)
Ltac quiet_steps :=
  repeat first
    [ apply quiet_ret
    | apply quiet_lift
    | apply quiet_st
    | apply quiet_bind; [|intros ?]
    | match goal with
      | |- quiet (if ?b then _ else _) => destruct b
      | |- quiet (match ?x with _ => _ end) => destruct x
      end ].

Lemma quiet_get_weather_animation (weather_code : json) :
  quiet (get_weather_animation weather_code).
Proof. unfold get_weather_animation. quiet_steps. Qed.

Lemma quiet_forecast_cards (days : list forecast_day) :
  quiet (forecast_cards days).
Proof.
  induction days as [|day days IH]; cbn [forecast_cards].
  - apply quiet_ret.
  - apply quiet_bind; [apply quiet_lift|]. intros [symbol description].
    apply quiet_bind; [apply quiet_st|]. intros _. exact IH.
Qed.

(* ------------------------------------------------------------------ *)
(** ** One request per helper *)

Lemma asks_get_location_coordinates (env : environment) (city_name : string) :
  asks (get_location_coordinates env city_name) (geocoding_search city_name).
Proof.
  unfold get_location_coordinates.
  apply asks_bind; [apply asks_requests_get|].
  intros response. quiet_steps.
Qed.

Lemma asks_get_weather_data (env : environment) (lat lon : json) :
  asks (get_weather_data env lat lon) (forecast_current lat lon).
Proof.
  unfold get_weather_data.
  apply asks_bind; [apply asks_requests_get|].
  intros response. quiet_steps.
Qed.

Lemma asks_get_weather_forecast (env : environment) (lat lon : json) :
  asks (get_weather_forecast env lat lon) (forecast_daily lat lon).
Proof.
  unfold get_weather_forecast.
  apply asks_bind; [apply asks_requests_get|].
  intros response. quiet_steps.
Qed.

(** X1. Each of the three helpers sends exactly one request, the one for
    its arguments, whatever the network answers and whether the helper
    returns or raises; none of them touches the session slot, and what a
    helper returns and shows does not depend on the session. *)
Theorem helpers_send_one_request (env : environment) :
  (forall city_name,
     asks (get_location_coordinates env city_name)
       (geocoding_search city_name)) /\
  (forall lat lon,
     asks (get_weather_data env lat lon) (forecast_current lat lon)) /\
  (forall lat lon,
     asks (get_weather_forecast env lat lon) (forecast_daily lat lon)).
Proof.
  split; [|split].
  - apply asks_get_location_coordinates.
  - apply asks_get_weather_data.
  - apply asks_get_weather_forecast.
Qed.

(* ------------------------------------------------------------------ *)
(** ** The search tab, whatever the geocoder answers *)

Lemma yields_silent_bind {A B} (c : M A) (k : A -> M B) :
  (exists r, yields c r [] []) ->
  (forall a, exists r, yields (k a) r [] []) ->
  exists r, yields (bind c k) r [] [].
Proof.
  intros [[a|e] Hc] Hk.
  - destruct (Hk a) as [r Hka]. exists r.
    exact (yields_bind_ok c k a r [] [] [] [] Hc Hka).
  - exists (Raise e). now apply yields_bind_raise.
Qed.

(** On a decoded body the geocoder shows nothing; on a transport failure
    it shows its error line and returns [None]. *)
Lemma get_location_coordinates_outcome (env : environment) (city_name : string) :
  (exists data r,
     env (geocoding_search city_name) = Body data /\
     yields (get_location_coordinates env city_name) r []
       [geocoding_search city_name]) \/
  (exists e,
     env (geocoding_search city_name) = RequestException e /\
     yields (get_location_coordinates env city_name) (Ok None)
       [St.error ("Error fetching location data: " ++ e)]
       [geocoding_search city_name]).
Proof.
  destruct (env (geocoding_search city_name)) as [e|data] eqn:Hnet.
  - right. exists e. split; [reflexivity|]. intros s.
    unfold get_location_coordinates, bind, requests_get, st, ret.
    now rewrite Hnet.
  - left. exists data.
    assert (Hbody : exists r,
      yields
        (found <- lift (
           has <-? Py.contains "results" data ;;
           if has : bool then
             results <-? Py.getitem data "results" ;;
             n <-? Py.len results ;;
             Ok (0 <? n)%nat
           else Ok false) ;;
         if found : bool then
           location <- lift (
             results <-? Py.getitem data "results" ;;
             Py.getindex results 0) ;;
           lat <- lift (Py.getitem location "latitude") ;;
           lon <- lift (Py.getitem location "longitude") ;;
           nm <- lift (Py.get location "name" (JStr city_name)) ;;
           ctry <- lift (Py.get location "country" (JStr "")) ;;
           ret (Some {| latitude := lat; longitude := lon;
                        name := nm; country := ctry |})
         else ret None) r [] []).
    { repeat first
        [ apply yields_silent_bind; [|intros ?]
        | eexists; apply yields_lift
        | eexists; apply yields_ret
        | match goal with
          | |- exists _, yields (if ?b then _ else _) _ _ _ => destruct b
          end ]. }
    destruct Hbody as [r Hbody]. exists r. split; [reflexivity|].
    intros s. unfold get_location_coordinates, bind at 1, requests_get.
    rewrite Hnet. rewrite Hbody. cbn. now rewrite !app_nil_r.
Qed.

(** X2. When the geocoding request fails in transport, the search tab
    shows two error lines, the helper's with the failure text and its own
    naming the query, and sets the session slot to [None]. *)
Theorem search_tab_transport_error
    (env : environment) (city : string) (s : app_state) (e : string) :
  city <> "" ->
  env (geocoding_search city) = RequestException e ->
  runs (search_tab env city) s tt None
    [St.error ("Error fetching location data: " ++ e);
     St.error ("Could not find location: '" ++ city ++
               "'. Please try again.")]
    [geocoding_search city].
Proof.
  intros Hcity Hnet.
  unfold runs, search_tab. rewrite (nonempty_eqb _ Hcity). cbn [negb].
  unfold get_location_coordinates, bind, requests_get, st, ret,
    set_location_data.
  rewrite Hnet. cbn. now rewrite <- app_assoc.
Qed.

Lemma search_tab_transport_error_witness :
  runs (search_tab (answering (fun _ => RequestException "Connection refused")) "Oslo")
    (resolved paris) tt None
    [St.error "Error fetching location data: Connection refused";
     St.error "Could not find location: 'Oslo'. Please try again."]
    [geocoding_search "Oslo"].
Proof.
  refine (search_tab_transport_error
            (answering (fun _ => RequestException "Connection refused")) "Oslo"
            (resolved paris) "Connection refused" _ eq_refl).
  discriminate.
Defined.

(** X3. For a non-empty query the search tab ends in one of three ways.
    It raises, and then nothing was shown and the session slot still holds
    what it held. Or it returns with the slot holding the location found
    and a success line shown. Or it returns with the slot set to [None]
    and the not-found line shown last. In each case exactly one geocoding
    request was sent. *)
Theorem search_tab_outcomes (env : environment) (city : string) (s : app_state) :
  city <> "" ->
  (exists e,
     search_tab env city s =
       (Raise e, {| location_data := location_data s;
                    calls := calls s;
                    requests := requests s ++ [geocoding_search city] |})) \/
  (exists loc,
     runs (search_tab env city) s tt (Some loc)
       [St.success [Lit "Selected: "; Fmt (name loc); Lit ", ";
                    Fmt (country loc)]]
       [geocoding_search city]) \/
  (exists before,
     runs (search_tab env city) s tt None
       (before ++ [St.error ("Could not find location: '" ++ city ++
                             "'. Please try again.")])
       [geocoding_search city]).
Proof.
  intros Hcity.
  unfold runs, search_tab. rewrite (nonempty_eqb _ Hcity). cbn [negb].
  unfold bind, st, set_location_data.
  destruct (get_location_coordinates_outcome env city)
    as [(data & r & _ & Hy) | (e & _ & Hy)]; rewrite !Hy.
  - destruct r as [[loc|]|e].
    + right. left. exists loc. cbn. now rewrite app_nil_r.
    + right. right. exists []. cbn. now rewrite app_nil_r.
    + left. exists e. now rewrite app_nil_r.
  - right. right. exists [St.error ("Error fetching location data: " ++ e)].
    cbn. now rewrite <- app_assoc.
Qed.

Lemma search_tab_outcomes_witness :
  (exists e,
     search_tab all_up "London" (resolved paris) =
       (Raise e, {| location_data := Some paris;
                    calls := [];
                    requests := [] ++ [geocoding_search "London"] |})) \/
  (exists loc,
     runs (search_tab all_up "London") (resolved paris) tt (Some loc)
       [St.success [Lit "Selected: "; Fmt (name loc); Lit ", ";
                    Fmt (country loc)]]
       [geocoding_search "London"]) \/
  (exists before,
     runs (search_tab all_up "London") (resolved paris) tt None
       (before ++ [St.error "Could not find location: 'London'. Please try again."])
       [geocoding_search "London"]).
Proof.
  refine (search_tab_outcomes all_up "London" (resolved paris) _).
  discriminate.
Defined.

(** X4. When the first match of the geocoding response lacks its latitude,
    or has it but lacks its longitude, the search tab raises [KeyError]
    for that key: nothing is shown and the session slot keeps the location
    it held before. *)
Theorem search_tab_missing_coordinate
    (env : environment) (city : string) (s : app_state)
    (fields first : list (string * json)) (others : list json) :
  city <> "" ->
  env (geocoding_search city) = Body (JObj fields) ->
  Py.assoc "results" fields = Some (JArr (JObj first :: others)) ->
  (Py.assoc "latitude" first = None ->
   search_tab env city s =
     (Raise (KeyError (JStr "latitude")),
      {| location_data := location_data s;
         calls := calls s;
         requests := requests s ++ [geocoding_search city] |})) /\
  (forall lat,
     Py.assoc "latitude" first = Some lat ->
     Py.assoc "longitude" first = None ->
     search_tab env city s =
       (Raise (KeyError (JStr "longitude")),
        {| location_data := location_data s;
           calls := calls s;
           requests := requests s ++ [geocoding_search city] |})).
Proof.
  intros Hcity Hnet Hres.
  unfold search_tab. rewrite (nonempty_eqb _ Hcity). cbn [negb].
  unfold get_location_coordinates, bind, requests_get, lift, ret.
  rewrite Hnet. cbn -[Py.assoc]. rewrite Hres. cbn -[Py.assoc].
  split.
  - now intros ->.
  - intros lat -> ->. reflexivity.
Qed.

Lemma search_tab_missing_coordinate_witness :
  search_tab
    (answering (fun _ => Body (JObj [("results",
                           JArr [JObj [("name", JStr "Nowhere");
                                       ("longitude", JFloat 0x1p+0)]])])))
    "Nowhere" (resolved paris)
  = (Raise (KeyError (JStr "latitude")),
     {| location_data := Some paris;
        calls := [];
        requests := [geocoding_search "Nowhere"] |}).
Proof.
  refine (proj1 (search_tab_missing_coordinate
            (answering (fun _ => Body (JObj [("results",
                                   JArr [JObj [("name", JStr "Nowhere");
                                               ("longitude", JFloat 0x1p+0)]])])))
            "Nowhere" (resolved paris)
            [("results", JArr [JObj [("name", JStr "Nowhere");
                                     ("longitude", JFloat 0x1p+0)]])]
            [("name", JStr "Nowhere"); ("longitude", JFloat 0x1p+0)] []
            _ eq_refl eq_refl) eq_refl).
  discriminate.
Defined.

(* ------------------------------------------------------------------ *)
(** ** The forecast list, whatever the body holds *)

Section ForRangeInv.
Context {A : Type}.
Variable body : nat -> result A.

Lemma for_range_ok_inv (n start : nat) (l : list A) :
  for_range body start n = Ok l ->
  List.length l = n /\
  forall i, (i < n)%nat ->
    exists a, body (start + i)%nat = Ok a /\ nth_error l i = Some a.
Proof.
  revert start l. induction n as [|n IH]; intros start l; cbn.
  - intros [= <-]. split; [reflexivity|]. intros i Hi. lia.
  - destruct (body start) as [a|e] eqn:Hhead; cbn; [|discriminate].
    destruct (for_range body (S start) n) as [rest|e] eqn:Htail; cbn;
      [|discriminate].
    intros [= <-]. destruct (IH _ _ Htail) as [Hlen Hnth]. split.
    + cbn. now rewrite Hlen.
    + intros [|i] Hi.
      * exists a. rewrite Nat.add_0_r. now split.
      * destruct (Hnth i) as (b & Hb & Hi'); [lia|].
        exists b. split; [|exact Hi'].
        now replace (start + S i)%nat with (S start + i)%nat by lia.
Qed.
End ForRangeInv.

(** X5. Whenever [get_weather_forecast] returns a list for a decoded body,
    the body has a [daily] block with a [time] sequence, the list has as
    many entries as [time] has elements, and entry [i] is the one built at
    index [i]; nothing is shown. *)
Theorem get_weather_forecast_length
    (env : environment) (lat lon : json) (s : app_state) (data : json)
    (forecast : list forecast_day) :
  env (forecast_daily lat lon) = Body data ->
  fst (get_weather_forecast env lat lon s) = Ok (Some forecast) ->
  exists daily time n,
    Py.getitem data "daily" = Ok daily /\
    Py.getitem daily "time" = Ok time /\
    Py.len time = Ok n /\
    List.length forecast = n /\
    calls (snd (get_weather_forecast env lat lon s)) = calls s /\
    forall i, (i < n)%nat ->
      exists entry,
        forecast_entry env data i = Ok entry /\
        nth_error forecast i = Some entry.
Proof.
  intros Hnet.
  unfold get_weather_forecast, bind, requests_get, lift, ret.
  rewrite Hnet. cbn -[for_range].
  destruct (Py.contains "daily" data) as [[|]|e]; cbn -[for_range];
    try discriminate.
  destruct (Py.getitem data "daily") as [daily|e] eqn:Hdaily;
    cbn -[for_range]; [|discriminate].
  destruct (Py.getitem daily "time") as [time|e] eqn:Htime;
    cbn -[for_range]; [|discriminate].
  destruct (Py.len time) as [n|e] eqn:Hn; cbn -[for_range]; [|discriminate].
  destruct (for_range (forecast_entry env data) 0 n) as [l|e] eqn:Hloop;
    cbn -[for_range]; [|discriminate].
  intros [= <-]. exists daily, time, n.
  destruct (for_range_ok_inv _ _ _ _ Hloop) as [Hlen Hnth].
  repeat split; try reflexivity; assumption.
Qed.

Lemma get_weather_forecast_length_witness :
  exists daily time n,
    Py.getitem long_data_body "daily" = Ok daily /\
    Py.getitem daily "time" = Ok time /\
    Py.len time = Ok n /\
    List.length
      [ {| date := "Mon 15"; temperature_max := JFloat 0x1.4p+2;
           temperature_min := JFloat (-0x1p+0); weathercode := JInt 3 |};
        {| date := "Tue 16"; temperature_max := JFloat 0x1.8p+2;
           temperature_min := JFloat 0x0p+0; weathercode := JInt 61 |} ]
      = n /\
    calls (snd (get_weather_forecast (answering (fun _ => Body long_data_body))
                  (latitude paris) (longitude paris) fresh)) = [] /\
    forall i, (i < n)%nat ->
      exists entry,
        forecast_entry (answering (fun _ => Body long_data_body))
          long_data_body i = Ok entry /\
        nth_error
          [ {| date := "Mon 15"; temperature_max := JFloat 0x1.4p+2;
               temperature_min := JFloat (-0x1p+0); weathercode := JInt 3 |};
            {| date := "Tue 16"; temperature_max := JFloat 0x1.8p+2;
               temperature_min := JFloat 0x0p+0; weathercode := JInt 61 |} ]
          i = Some entry.
Proof.
  refine (get_weather_forecast_length (answering (fun _ => Body long_data_body))
            (latitude paris) (longitude paris) fresh long_data_body _
            eq_refl _).
  vm_compute. reflexivity.
Defined.

(* ------------------------------------------------------------------ *)
(** ** The catalog and the animation on any decoded value *)

Lemma dict_find_in {V} (k : Z) (v : V) (d : list (Z * V)) :
  dict_find k d = Some v -> In (k, v) d.
Proof.
  induction d as [|[k' v'] d IH]; cbn; [discriminate|].
  destruct (Z.eqb_spec k k') as [->|_].
  - intros [= ->]. now left.
  - intros H. right. now apply IH.
Qed.

(** A hashable value compares equal to the int [k] exactly when [k] is
    the key it is looked up under. *)
Lemma dict_key_eq_int (code : json) (key : option Z) (k : Z) :
  dict_key code = Ok key ->
  Py.eq_int code k = true <-> key = Some k.
Proof.
  destruct code; cbn; try discriminate; intros [= <-].
  - split; discriminate.
  - rewrite Z.eqb_eq. split; congruence.
  - rewrite Z.eqb_eq. split; congruence.
  - destruct (Py.float_integer f) as [m|].
    + rewrite Z.eqb_eq. split; congruence.
    + split; discriminate.
  - split; discriminate.
Qed.

(** X6. [WEATHER_SYMBOLS.get(code, default)] on any decoded value: a list
    or a dict raises [TypeError]; every other value gives an entry, which
    is the table's entry of each key the value compares equal to (so the
    float 3.0 and [True] are looked up as 3 and 1) and the fallback when
    it equals no key. *)
Theorem WEATHER_SYMBOLS_get_any (code : json) :
  (hashable code = false -> WEATHER_SYMBOLS_get code = Raise TypeError) /\
  (hashable code = true ->
   WEATHER_SYMBOLS_get code = Ok (entry_of code) /\
   (forall k e,
      In (k, e) WEATHER_SYMBOLS -> Py.eq_int code k = true ->
      entry_of code = e) /\
   ((forall k, In k (map fst WEATHER_SYMBOLS) -> Py.eq_int code k = false) ->
    entry_of code = ("❓", "Unknown"))).
Proof.
  split.
  - destruct code; cbn; try discriminate; reflexivity.
  - intros Hhash.
    assert (Hkey : exists key, dict_key code = Ok key)
      by (destruct code; cbn in *; try discriminate; eexists; reflexivity).
    destruct Hkey as [key Hkey].
    unfold entry_of, WEATHER_SYMBOLS_get. rewrite Hkey. cbn [rbind].
    split; [reflexivity|]. split.
    + intros k e Hin Heq.
      apply (dict_key_eq_int code key k Hkey) in Heq. subst key.
      now rewrite (dict_find_present _ _ _ WEATHER_SYMBOLS_keys_distinct Hin).
    + intros Hnone. destruct key as [k|]; [|reflexivity].
      destruct (dict_find k WEATHER_SYMBOLS) as [e|] eqn:Hfind; [|reflexivity].
      apply dict_find_in in Hfind.
      assert (Heq : Py.eq_int code k = true)
        by (now apply (dict_key_eq_int code (Some k) k Hkey)).
      rewrite Hnone in Heq; [discriminate|].
      now apply (in_map fst _ (k, e)).
Qed.

Lemma WEATHER_SYMBOLS_get_any_witness :
  WEATHER_SYMBOLS_get (JArr [JInt 3]) = Raise TypeError /\
  WEATHER_SYMBOLS_get (JFloat 0x1.8p+1) = Ok ("☁️", "Overcast") /\
  WEATHER_SYMBOLS_get (JBool true) = Ok ("🌤️", "Mainly clear") /\
  WEATHER_SYMBOLS_get (JStr "3") = Ok ("❓", "Unknown").
Proof.
  split; [|split; [|split]].
  - apply (proj1 (WEATHER_SYMBOLS_get_any (JArr [JInt 3]))). reflexivity.
  - destruct (proj2 (WEATHER_SYMBOLS_get_any (JFloat 0x1.8p+1)) eq_refl)
      as (Hget & Hin & _).
    rewrite Hget. apply f_equal. apply (Hin 3); [cbn; tauto|reflexivity].
  - destruct (proj2 (WEATHER_SYMBOLS_get_any (JBool true)) eq_refl)
      as (Hget & Hin & _).
    rewrite Hget. apply f_equal. apply (Hin 1); [cbn; tauto|reflexivity].
  - destruct (proj2 (WEATHER_SYMBOLS_get_any (JStr "3")) eq_refl)
      as (Hget & _ & Hout).
    rewrite Hget. apply f_equal. apply Hout. reflexivity.
Defined.

Lemma eq_int_functional (x : json) (n m : Z) :
  Py.eq_int x n = true -> Py.eq_int x m = true -> n = m.
Proof.
  destruct x; cbn; try discriminate.
  - rewrite !Z.eqb_eq. congruence.
  - rewrite !Z.eqb_eq. congruence.
  - destruct (Py.float_integer f); [|discriminate].
    rewrite !Z.eqb_eq. congruence.
Qed.

Lemma in_ints_disjoint (x : json) (ns ms : list Z) :
  (forall n, In n ns -> ~ In n ms) ->
  Py.in_ints x ns = true -> Py.in_ints x ms = false.
Proof.
  intros Hdisj Hns.
  destruct (Py.in_ints x ms) eqn:Hms; [|reflexivity].
  unfold Py.in_ints in *. apply existsb_exists in Hns as (n & Hn & Hxn).
  apply existsb_exists in Hms as (m & Hm & Hxm).
  rewrite (eq_int_functional x n m Hxn Hxm) in Hn.
  now destruct (Hdisj m Hn).
Qed.

(** X7. On any decoded value [get_weather_animation] returns without
    raising, sends nothing and leaves the session alone. It calls
    [st.snow] exactly when the value equals one of 71, 73, 75, 77, 85, 86
    and [st.balloons] exactly when it equals one of 95, 96, 99 (the two
    tests cannot both hold, so their order does not matter), and makes no
    call otherwise. *)
Theorem get_weather_animation_any (weather_code : json) :
  (Py.in_ints weather_code [71; 73; 75; 77; 85; 86] = true ->
   yields (get_weather_animation weather_code) (Ok tt) [St.snow] []) /\
  (Py.in_ints weather_code [95; 96; 99] = true ->
   yields (get_weather_animation weather_code) (Ok tt) [St.balloons] []) /\
  (Py.in_ints weather_code [71; 73; 75; 77; 85; 86] = false ->
   Py.in_ints weather_code [95; 96; 99] = false ->
   yields (get_weather_animation weather_code) (Ok tt) [] []).
Proof.
  unfold get_weather_animation. split; [|split].
  - intros ->. apply yields_st.
  - intros Hstorm.
    assert (Hsnow : Py.in_ints weather_code [71; 73; 75; 77; 85; 86] = false).
    { apply (in_ints_disjoint weather_code [95; 96; 99]); [|exact Hstorm].
      cbn. intros n Hn. intuition lia. }
    rewrite Hsnow, Hstorm. apply yields_st.
  - intros -> ->. apply yields_ret.
Qed.

Lemma get_weather_animation_any_witness :
  yields (get_weather_animation (JFloat 0x1.1cp+6)) (Ok tt) [St.snow] [] /\
  yields (get_weather_animation (JInt 99)) (Ok tt) [St.balloons] [] /\
  yields (get_weather_animation (JStr "71")) (Ok tt) [] [].
Proof.
  split; [|split].
  - apply (proj1 (get_weather_animation_any (JFloat 0x1.1cp+6))).
    reflexivity.
  - apply (proj1 (proj2 (get_weather_animation_any (JInt 99)))).
    reflexivity.
  - apply (proj2 (proj2 (get_weather_animation_any (JStr "71"))));
      reflexivity.
Defined.

(* ------------------------------------------------------------------ *)
(** ** The forecast cards *)

Lemma WEATHER_SYMBOLS_get_hashable (code : json) :
  hashable code = true -> WEATHER_SYMBOLS_get code = Ok (entry_of code).
Proof.
  unfold entry_of, WEATHER_SYMBOLS_get.
  destruct code; cbn; try discriminate; reflexivity.
Qed.

Lemma WEATHER_SYMBOLS_get_unhashable (code : json) :
  hashable code = false -> WEATHER_SYMBOLS_get code = Raise TypeError.
Proof. destruct code; cbn; try discriminate; reflexivity. Qed.

Lemma forecast_cards_cons_ok (day : forecast_day) (days : list forecast_day)
    (s : app_state) :
  hashable (weathercode day) = true ->
  forecast_cards (day :: days) s =
  forecast_cards days
    {| location_data := location_data s;
       calls := calls s ++ [card_of day];
       requests := requests s |}.
Proof.
  intros Hhash. cbn [forecast_cards]. unfold bind at 1, lift.
  rewrite (WEATHER_SYMBOLS_get_hashable _ Hhash).
  unfold card_of. destruct (entry_of (weathercode day)) as [symbol description].
  reflexivity.
Qed.

Lemma forecast_cards_all (days : list forecast_day) :
  forallb (fun day => hashable (weathercode day)) days = true ->
  yields (forecast_cards days) (Ok tt) (map card_of days) [].
Proof.
  induction days as [|day days IH]; intros Hall s.
  - apply yields_ret.
  - cbn [forallb] in Hall. apply andb_prop in Hall as [Hday Hrest].
    rewrite (forecast_cards_cons_ok _ _ _ Hday), (IH Hrest). cbn.
    now rewrite <- app_assoc.
Qed.

(** X8. The forecast cards stop at the first day whose weather code is a
    list or a dict: the lookup raises [TypeError]; the cards of the days
    before it have been shown and stay on the page. *)
Theorem forecast_cards_unhashable
    (before after : list forecast_day) (bad : forecast_day) :
  forallb (fun day => hashable (weathercode day)) before = true ->
  hashable (weathercode bad) = false ->
  yields (forecast_cards (before ++ bad :: after)) (Raise TypeError)
    (map card_of before) [].
Proof.
  intros Hbefore Hbad.
  induction before as [|day before IH]; intros s.
  - cbn [app forecast_cards map]. unfold bind at 1, lift.
    rewrite (WEATHER_SYMBOLS_get_unhashable _ Hbad).
    destruct s. cbn. now rewrite !app_nil_r.
  - cbn [forallb] in Hbefore. apply andb_prop in Hbefore as [Hday Hrest].
    cbn [app]. rewrite (forecast_cards_cons_ok _ _ _ Hday), (IH Hrest). cbn.
    now rewrite <- app_assoc.
Qed.

Lemma forecast_cards_unhashable_witness :
  yields
    (forecast_cards
       ([ {| date := "Mon 15"; temperature_max := JFloat 0x1.4p+2;
             temperature_min := JFloat (-0x1p+0); weathercode := JInt 3 |} ] ++
        {| date := "Tue 16"; temperature_max := JFloat 0x1.8p+2;
           temperature_min := JFloat 0x0p+0; weathercode := JArr [JInt 61] |}
        :: []))
    (Raise TypeError)
    [ St.markdown (St.forecast_card "Mon 15" "☁️" (JFloat 0x1.4p+2)
                     (JFloat (-0x1p+0)) "Overcast") ]
    [].
Proof.
  exact (forecast_cards_unhashable
           [ {| date := "Mon 15"; temperature_max := JFloat 0x1.4p+2;
                temperature_min := JFloat (-0x1p+0); weathercode := JInt 3 |} ]
           []
           {| date := "Tue 16"; temperature_max := JFloat 0x1.8p+2;
              temperature_min := JFloat 0x0p+0; weathercode := JArr [JInt 61] |}
           eq_refl eq_refl).
Defined.

Lemma forallb_firstn {B} (p : B -> bool) (n : nat) (l : list B) :
  forallb p l = true -> forallb p (firstn n l) = true.
Proof.
  revert l. induction n as [|n IH]; intros [|x l]; cbn; try reflexivity.
  intros H. apply andb_prop in H as [Hx Hl]. now rewrite Hx, IH.
Qed.

(* ------------------------------------------------------------------ *)
(** ** The display block after a good current-weather answer *)

Section DisplayCurrent.
Variable env : environment.
Variable loc : location.
Variables fields block : list (string * json).
Variables temp wind code : json.
Hypothesis current_response :
  env (forecast_current (latitude loc) (longitude loc)) = Body (JObj fields).
Hypothesis has_block :
  Py.assoc "current_weather" fields = Some (JObj block).
Hypothesis has_temperature : Py.assoc "temperature" block = Some temp.
Hypothesis has_windspeed : Py.assoc "windspeed" block = Some wind.
Hypothesis has_weathercode : Py.assoc "weathercode" block = Some code.
Hypothesis code_hashable : hashable code = true.

(** The display block reaches the forecast with the current conditions
    on the page. *)
Lemma display_reaches_forecast (s : app_state) :
  location_data s = Some loc ->
  display env s =
  bind (get_weather_forecast env (latitude loc) (longitude loc))
    (fun forecast_data =>
       match forecast_data with
       | Some (day :: days) => forecast_cards (firstn 5 (day :: days))
       | _ => st (St.warning "Could not retrieve forecast data.")
       end)
    {| location_data := Some loc;
       calls := calls s ++ heading_of loc :: current_shown loc temp wind code;
       requests := requests s ++
                   [forecast_current (latitude loc) (longitude loc)] |}.
Proof.
  intros Hloc. rewrite (display_unfold env s loc Hloc). unfold bind at 1.
  rewrite (get_weather_data_block env _ _ _ fields (JObj block)
             current_response has_block).
  cbn [location_data calls requests].
  rewrite (truthy_obj _ _ _ has_temperature).
  unfold bind at 1, lift at 1. cbn [Py.getitem].
  rewrite has_temperature.
  unfold bind at 1, lift at 1. rewrite has_windspeed.
  unfold bind at 1, lift at 1. rewrite has_weathercode.
  unfold bind at 1, lift at 1.
  rewrite (WEATHER_SYMBOLS_get_hashable _ code_hashable).
  unfold current_shown, heading_of.
  destruct (entry_of code) as [symbol description]. cbn [fst snd].
  do 4 (unfold bind at 1; rewrite (yields_st _ _);
        cbn [location_data calls requests]).
  unfold bind at 1, get_weather_animation.
  destruct (Py.in_ints code [71; 73; 75; 77; 85; 86]);
    [|destruct (Py.in_ints code [95; 96; 99])];
    rewrite ?(yields_st _ _), ?(yields_ret tt _);
    cbn [location_data calls requests];
    do 3 (unfold bind at 1; rewrite (yields_st _ _);
          cbn [location_data calls requests]);
    rewrite ?app_nil_r, <- !app_assoc; reflexivity.
Qed.
End DisplayCurrent.

(** X9. When the current conditions came with all three fields and a
    hashable code, a forecast that cannot be had does not disturb them:
    they are on the page, followed by the warning "Could not retrieve
    forecast data.". This holds when the forecast request fails in
    transport (the helper's own error line then comes before the warning),
    when the body has no [daily] block, and when [daily.time] is empty. *)
Theorem display_forecast_unavailable
    (env : environment) (s : app_state) (loc : location)
    (fields block : list (string * json)) (temp wind code : json) :
  location_data s = Some loc ->
  env (forecast_current (latitude loc) (longitude loc)) = Body (JObj fields) ->
  Py.assoc "current_weather" fields = Some (JObj block) ->
  Py.assoc "temperature" block = Some temp ->
  Py.assoc "windspeed" block = Some wind ->
  Py.assoc "weathercode" block = Some code ->
  hashable code = true ->
  let both := [forecast_current (latitude loc) (longitude loc);
               forecast_daily (latitude loc) (longitude loc)] in
  let warning := St.warning "Could not retrieve forecast data." in
  (forall e,
     env (forecast_daily (latitude loc) (longitude loc))
       = RequestException e ->
     runs (display env) s tt (Some loc)
       (heading_of loc :: current_shown loc temp wind code ++
        [St.error ("Error fetching forecast data: " ++ e); warning])
       both) /\
  (forall fields2,
     env (forecast_daily (latitude loc) (longitude loc))
       = Body (JObj fields2) ->
     Py.assoc "daily" fields2 = None ->
     runs (display env) s tt (Some loc)
       (heading_of loc :: current_shown loc temp wind code ++ [warning])
       both) /\
  (forall fields2 daily,
     env (forecast_daily (latitude loc) (longitude loc))
       = Body (JObj fields2) ->
     Py.assoc "daily" fields2 = Some (JObj daily) ->
     Py.assoc "time" daily = Some (JArr []) ->
     runs (display env) s tt (Some loc)
       (heading_of loc :: current_shown loc temp wind code ++ [warning])
       both).
Proof.
  intros Hloc Hnet Hblock Htemp Hwind Hcode Hhash both warning.
  unfold runs.
  rewrite (display_reaches_forecast env loc fields block temp wind code
             Hnet Hblock Htemp Hwind Hcode Hhash s Hloc).
  subst both warning.
  split; [|split].
  - intros e Hnet2. rewrite !app_comm_cons.
    remember (heading_of loc :: current_shown loc temp wind code) as shown.
    unfold get_weather_forecast, bind, requests_get, lift, ret, st.
    rewrite Hnet2. cbn. now rewrite <- !app_assoc.
  - intros fields2 Hnet2 Hdaily. rewrite !app_comm_cons.
    remember (heading_of loc :: current_shown loc temp wind code) as shown.
    unfold get_weather_forecast, bind, requests_get, lift, ret, st.
    rewrite Hnet2. cbn -[Py.assoc]. rewrite Hdaily. cbn.
    now rewrite <- !app_assoc.
  - intros fields2 daily Hnet2 Hdaily Htime. rewrite !app_comm_cons.
    remember (heading_of loc :: current_shown loc temp wind code) as shown.
    unfold get_weather_forecast, bind, requests_get, lift, ret, st.
    rewrite Hnet2. cbn -[Py.assoc]. rewrite Hdaily.
    cbn -[Py.assoc]. rewrite Htime. cbn. now rewrite <- !app_assoc.
Qed.

Lemma display_forecast_unavailable_witness :
  runs (display (answering (fun r =>
                   match r with
                   | forecast_daily _ _ => RequestException "Read timed out."
                   | _ => Body current_body
                   end)))
    (resolved paris) tt (Some paris)
    (heading_of paris ::
     current_shown paris (JFloat 0x1.e666666666666p+3) (JFloat 0x1.4p+3)
       (JInt 3) ++
     [St.error "Error fetching forecast data: Read timed out.";
      St.warning "Could not retrieve forecast data."])
    [forecast_current (latitude paris) (longitude paris);
     forecast_daily (latitude paris) (longitude paris)].
Proof.
  exact (proj1 (display_forecast_unavailable
                  (answering (fun r =>
                     match r with
                     | forecast_daily _ _ => RequestException "Read timed out."
                     | _ => Body current_body
                     end))
                  (resolved paris) paris
                  [ ("current_weather",
                     JObj [ ("temperature", JFloat 0x1.e666666666666p+3);
                            ("windspeed", JFloat 0x1.4p+3);
                            ("weathercode", JInt 3) ]) ]
                  [ ("temperature", JFloat 0x1.e666666666666p+3);
                    ("windspeed", JFloat 0x1.4p+3);
                    ("weathercode", JInt 3) ]
                  (JFloat 0x1.e666666666666p+3) (JFloat 0x1.4p+3) (JInt 3)
                  eq_refl eq_refl eq_refl eq_refl eq_refl eq_refl eq_refl)
           "Read timed out." eq_refl).
Defined.

Lemma entries_hashable (times maxs mins codes : list json) (n : nat) :
  forallb hashable codes = true ->
  (n <= List.length codes)%nat ->
  forallb (fun day => hashable (weathercode day))
    (map (entry_at times maxs mins codes) (seq 0 n)) = true.
Proof.
  intros Hcodes Hn. apply forallb_forall. intros day Hin.
  apply in_map_iff in Hin as (i & <- & Hi). apply in_seq in Hi.
  cbn [entry_at weathercode]. apply forallb_nth; [assumption|lia].
Qed.

(** X10. The whole display block when both answers are good: with the
    three current fields present, the four daily arrays present, [time]
    non-empty, holding ISO dates and no longer than the other arrays, and
    every weather code hashable, the page gets the heading, the current
    conditions and one card for each of the first five forecast days at
    most, in order; two requests are sent, the current one first. *)
Theorem display_shows_first_five
    (env : environment) (s : app_state) (loc : location)
    (fields block : list (string * json)) (temp wind code : json)
    (fields2 daily : list (string * json))
    (times maxs mins codes : list json) :
  location_data s = Some loc ->
  env (forecast_current (latitude loc) (longitude loc)) = Body (JObj fields) ->
  Py.assoc "current_weather" fields = Some (JObj block) ->
  Py.assoc "temperature" block = Some temp ->
  Py.assoc "windspeed" block = Some wind ->
  Py.assoc "weathercode" block = Some code ->
  hashable code = true ->
  env (forecast_daily (latitude loc) (longitude loc)) = Body (JObj fields2) ->
  Py.assoc "daily" fields2 = Some (JObj daily) ->
  Py.assoc "time" daily = Some (JArr times) ->
  Py.assoc "temperature_2m_max" daily = Some (JArr maxs) ->
  Py.assoc "temperature_2m_min" daily = Some (JArr mins) ->
  Py.assoc "weathercode" daily = Some (JArr codes) ->
  forallb Dates.is_iso_date times = true ->
  forallb hashable codes = true ->
  (1 <= List.length times)%nat ->
  (List.length times <= List.length maxs)%nat ->
  (List.length times <= List.length mins)%nat ->
  (List.length times <= List.length codes)%nat ->
  let forecast :=
    map (entry_at times maxs mins codes) (seq 0 (List.length times)) in
  runs (display env) s tt (Some loc)
    (heading_of loc :: current_shown loc temp wind code ++
     map card_of (firstn 5 forecast))
    [forecast_current (latitude loc) (longitude loc);
     forecast_daily (latitude loc) (longitude loc)] /\
  List.length (map card_of (firstn 5 forecast))
    = Nat.min 5 (List.length times).
Proof.
  intros Hloc Hnet Hblock Htemp Hwind Hcode Hhash
    Hnet2 Hdaily Htime Hmax Hmin Hcodes Hdates Hhashes Hone Ha Hb Hc forecast.
  split.
  - unfold runs.
    rewrite (display_reaches_forecast env loc fields block temp wind code
               Hnet Hblock Htemp Hwind Hcode Hhash s Hloc).
    unfold bind at 1.
    rewrite (get_weather_forecast_long_enough env _ _ fields2 daily
               times maxs mins codes Hnet2 Hdaily Htime Hmax Hmin Hcodes
               Hdates _ Ha Hb Hc).
    fold forecast. cbn [location_data calls requests].
    assert (Hcards : yields (forecast_cards (firstn 5 forecast)) (Ok tt)
                       (map card_of (firstn 5 forecast)) []).
    { apply forecast_cards_all. apply forallb_firstn.
      now apply entries_hashable. }
    assert (Hcons : exists day days, forecast = day :: days).
    { subst forecast. destruct (List.length times) as [|n]; [lia|].
      cbn [seq map]. eauto. }
    destruct Hcons as (day & days & Hcons). rewrite Hcons in *.
    rewrite Hcards. cbn [location_data calls requests].
    rewrite !app_comm_cons.
    now rewrite !app_nil_r, <- !app_assoc.
  - subst forecast.
    now rewrite length_map, length_firstn, length_map, length_seq.
Qed.

Lemma display_shows_first_five_witness :
  let forecast :=
    map (entry_at week_times week_temperatures week_temperatures week_codes)
      (seq 0 7) in
  runs (display week_up) (resolved paris) tt (Some paris)
    (heading_of paris ::
     current_shown paris (JFloat 0x1.e666666666666p+3) (JFloat 0x1.4p+3)
       (JInt 3) ++
     map card_of (firstn 5 forecast))
    [forecast_current (latitude paris) (longitude paris);
     forecast_daily (latitude paris) (longitude paris)] /\
  List.length (map card_of (firstn 5 forecast)) = 5%nat.
Proof.
  refine (display_shows_first_five week_up (resolved paris) paris
            [ ("current_weather",
               JObj [ ("temperature", JFloat 0x1.e666666666666p+3);
                      ("windspeed", JFloat 0x1.4p+3);
                      ("weathercode", JInt 3) ]) ]
            [ ("temperature", JFloat 0x1.e666666666666p+3);
              ("windspeed", JFloat 0x1.4p+3);
              ("weathercode", JInt 3) ]
            (JFloat 0x1.e666666666666p+3) (JFloat 0x1.4p+3) (JInt 3)
            [ ("latitude", JFloat 0x1.86db22d0e5604p+5);
              ("daily", JObj (daily_block week_times week_temperatures
                                week_temperatures week_codes)) ]
            (daily_block week_times week_temperatures week_temperatures
               week_codes)
            week_times week_temperatures week_temperatures week_codes
            eq_refl eq_refl eq_refl eq_refl eq_refl eq_refl eq_refl
            eq_refl eq_refl eq_refl eq_refl eq_refl eq_refl eq_refl eq_refl
            _ _ _ _); cbn; lia.
Defined.

Example week_cards :
  filter St.is_forecast_card (calls (snd (display week_up (resolved paris))))
  = [ St.markdown (St.forecast_card "Mon 26" "☀️" (JInt 4) (JInt 4)
                     "Clear sky");
      St.markdown (St.forecast_card "Tue 27" "🌤️" (JInt 5) (JInt 5)
                     "Mainly clear");
      St.markdown (St.forecast_card "Wed 28" "🌥️" (JInt 6) (JInt 6)
                     "Partly cloudy");
      St.markdown (St.forecast_card "Thu 29" "☁️" (JInt 7) (JInt 7)
                     "Overcast");
      St.markdown (St.forecast_card "Fri 01" "🌫️" (JInt 8) (JInt 8)
                     "Fog") ].
Proof. vm_compute. reflexivity. Qed.

(* ------------------------------------------------------------------ *)
(** ** What the display block sends *)

Lemma asks_then_at_most {A B} (c : M A) (k : A -> M B) (req1 req2 : request) :
  asks c req1 ->
  (forall a, at_most (k a) req2) ->
  exists r shown sent,
    yields (bind c k) r shown (req1 :: sent) /\
    (sent = [] \/ sent = [req2]).
Proof.
  intros (r & shown & Hc) Hk. destruct r as [a|e].
  - destruct (Hk a) as (r' & shown' & [Hka|Hka]);
      exists r', (shown ++ shown')%list.
    + exists []. split; [|now left].
      exact (yields_bind_ok c k a r' shown shown' [req1] [] Hc Hka).
    + exists [req2]. split; [|now right].
      exact (yields_bind_ok c k a r' shown shown' [req1] [req2] Hc Hka).
  - exists (Raise e), shown, []. split; [|now left].
    now apply yields_bind_raise.
Qed.

(** After the heading the display block sends the current-weather request
    and then, at most, the forecast request. *)
Lemma display_frame (env : environment) (s : app_state) (loc : location) :
  location_data s = Some loc ->
  exists r shown sent,
    display env s =
      (r, {| location_data := Some loc;
             calls := calls s ++ heading_of loc :: shown;
             requests := requests s ++
               forecast_current (latitude loc) (longitude loc) :: sent |}) /\
    (sent = [] \/ sent = [forecast_daily (latitude loc) (longitude loc)]).
Proof.
  intros Hloc. rewrite (display_unfold env s loc Hloc).
  match goal with
  | |- context [bind ?c ?k ?s1] =>
      destruct (asks_then_at_most c k
                  (forecast_current (latitude loc) (longitude loc))
                  (forecast_daily (latitude loc) (longitude loc)))
        as (r & shown & sent & Hy & Hsent)
  end.
  - apply asks_get_weather_data.
  - intros weather_data.
    destruct (Py.truthy weather_data); [|apply at_most_quiet, quiet_st].
    do 3 (apply at_most_bind; [apply quiet_lift|intros ?]).
    apply at_most_bind; [apply quiet_lift|intros [symbol description]].
    do 4 (apply at_most_bind; [apply quiet_st|intros _]).
    apply at_most_bind; [apply quiet_get_weather_animation|intros _].
    do 3 (apply at_most_bind; [apply quiet_st|intros _]).
    apply at_most_asks, asks_bind; [apply asks_get_weather_forecast|].
    intros [[|day days]|];
      [apply quiet_st|apply quiet_forecast_cards|apply quiet_st].
  - exists r, shown, sent. split; [|exact Hsent].
    rewrite Hy. cbn [location_data calls requests]. unfold heading_of.
    now rewrite <- app_assoc.
Qed.

Lemma display_no_location (env : environment) (s : app_state) :
  location_data s = None -> display env s = (Ok tt, s).
Proof.
  intros Hloc. unfold display, bind, get_location_data, ret.
  now rewrite Hloc.
Qed.

(** X11. Whatever the network answers and whether the display block
    returns or raises, it leaves the session slot as it was. With no
    location in the slot it sends and shows nothing. With a location it
    sends the current-weather request for that location and then at most
    the forecast request for it: never a geocoding request, never the
    forecast request alone, never a request twice. *)
Theorem display_requests (env : environment) (s : app_state) :
  location_data (snd (display env s)) = location_data s /\
  exists (shown : list St.call) (sent : list request),
    calls (snd (display env s)) = (calls s ++ shown)%list /\
    requests (snd (display env s)) = (requests s ++ sent)%list /\
    match location_data s with
    | None => shown = [] /\ sent = []
    | Some loc =>
        sent = [forecast_current (latitude loc) (longitude loc)] \/
        sent = [forecast_current (latitude loc) (longitude loc);
                forecast_daily (latitude loc) (longitude loc)]
    end.
Proof.
  destruct (location_data s) as [loc|] eqn:Hloc.
  - destruct (display_frame env s loc Hloc)
      as (r & shown & sent & Hrun & Hsent).
    rewrite Hrun. cbn [snd location_data calls requests].
    split; [reflexivity|].
    exists (heading_of loc :: shown),
      (forecast_current (latitude loc) (longitude loc) :: sent).
    repeat split. destruct Hsent as [-> | ->]; [now left|now right].
  - rewrite (display_no_location env s Hloc). cbn [snd].
    split; [exact Hloc|].
    exists [], []. now rewrite !app_nil_r.
Qed.

(* ------------------------------------------------------------------ *)
(** ** The map tab without a click, and whole runs *)

Lemma map_tab_no_click (map_data : json) :
  no_click map_data ->
  yields (map_tab true map_data) (Ok tt)
    [St.write "Click on the map to select a location:"] [].
Proof.
  intros Hno s. unfold map_tab, bind, st, lift, ret.
  destruct Hno as [-> | (fields & -> & Hlast)].
  - cbn. now rewrite !app_nil_r.
  - destruct fields as [|field fields].
    + cbn. now rewrite !app_nil_r.
    + cbn -[Py.assoc]. destruct Hlast as [-> | ->]; cbn;
        now rewrite !app_nil_r.
Qed.

Lemma map_tab_no_folium (map_data : json) :
  yields (map_tab false map_data) (Ok tt)
    [St.warning "Map functionality is not available. Please install folium and streamlit-folium to use map selection.";
     St.info "You can still use the city search feature above."] [].
Proof.
  intros s. unfold map_tab, bind, st. cbn.
  now rewrite !app_nil_r, <- app_assoc.
Qed.

(** X12. The map tab changes the selected location only on a click. When
    the folium imports failed it shows its warning and its hint whatever
    the map value is; when [st_folium] reports no click it shows only its
    prompt. Either way it returns, sends nothing and leaves the session
    slot as it was. *)
Theorem map_tab_without_click (map_data : json) :
  yields (map_tab false map_data) (Ok tt)
    [St.warning "Map functionality is not available. Please install folium and streamlit-folium to use map selection.";
     St.info "You can still use the city search feature above."] [] /\
  (no_click map_data ->
   yields (map_tab true map_data) (Ok tt)
     [St.write "Click on the map to select a location:"] []).
Proof.
  split; [apply map_tab_no_folium|apply map_tab_no_click].
Qed.

Lemma map_tab_without_click_witness :
  yields (map_tab true (JObj [("last_clicked", JNull); ("zoom", JInt 2)]))
    (Ok tt) [St.write "Click on the map to select a location:"] [].
Proof.
  apply (proj2 (map_tab_without_click
                  (JObj [("last_clicked", JNull); ("zoom", JInt 2)]))).
  right. exists [("last_clicked", JNull); ("zoom", JInt 2)].
  split; [reflexivity|]. right. reflexivity.
Defined.

(** The first steps of a run: the folium error if any, the title and the
    heading of the selection. *)
Lemma script_unfold (env : environment) (inp : inputs) (s : app_state) :
  exists shown,
    script env inp s =
    bind (search_tab env (city inp))
      (fun _ =>
         map_tab (FOLIUM_AVAILABLE inp) (map_data inp) ;;
         display env ;;
         st St.sidebar_title ;;
         st St.sidebar_info)
      {| location_data := location_data s;
         calls := calls s ++ shown;
         requests := requests s |}.
Proof.
  unfold script. destruct (FOLIUM_AVAILABLE inp).
  - exists [St.title "🌦️ Real-Time Weather Predictor";
            St.subheader [Lit "Select Location"]].
    unfold bind at 1, ret at 1.
    do 2 (unfold bind at 1; rewrite (yields_st _ _);
          cbn [location_data calls requests]).
    rewrite !app_nil_r, <- ?app_assoc. reflexivity.
  - exists [St.error folium_missing;
            St.title "🌦️ Real-Time Weather Predictor";
            St.subheader [Lit "Select Location"]].
    do 3 (unfold bind at 1; rewrite (yields_st _ _);
          cbn [location_data calls requests]).
    rewrite !app_nil_r, <- ?app_assoc. reflexivity.
Qed.

Lemma display_keeps_slot (env : environment) (s : app_state) :
  location_data (snd (display env s)) = location_data s.
Proof.
  destruct (location_data s) as [loc|] eqn:Hloc.
  - destruct (display_frame env s loc Hloc) as (r & shown & sent & Hrun & _).
    now rewrite Hrun.
  - now rewrite (display_no_location env s Hloc).
Qed.

(** The last steps of a run, from the display block on, keep the session
    slot, and send what the display block sends. *)
Lemma script_tail (env : environment) (s : app_state) :
  let s' := snd ((display env ;; st St.sidebar_title ;;
                  st St.sidebar_info) s) in
  location_data s' = location_data s /\
  requests s' = requests (snd (display env s)).
Proof.
  cbn zeta. unfold bind at 1 3.
  pose proof (display_keeps_slot env s) as Hslot.
  destruct (display env s) as [[[]|e] s1]; cbn [snd] in *.
  - unfold bind. rewrite !(yields_st _ _).
    cbn [snd location_data requests]. split; [exact Hslot|].
    now rewrite ?app_nil_r.
  - now split.
Qed.

(** X13. A run with an empty text input and no click (or no folium)
    leaves the selected location as it was, so a location chosen earlier
    stays selected across reruns. Such a run never queries the geocoder:
    with no location selected it sends nothing, and with one it sends the
    current-weather request for that location and at most the forecast
    request after it. *)
Theorem script_idle_run
    (env : environment) (folium : bool) (map_value : json) (s : app_state) :
  folium = false \/ no_click map_value ->
  let s' := snd (script env {| FOLIUM_AVAILABLE := folium;
                               city := "";
                               map_data := map_value |} s) in
  location_data s' = location_data s /\
  exists sent : list request,
    requests s' = (requests s ++ sent)%list /\
    match location_data s with
    | None => sent = []
    | Some loc =>
        sent = [forecast_current (latitude loc) (longitude loc)] \/
        sent = [forecast_current (latitude loc) (longitude loc);
                forecast_daily (latitude loc) (longitude loc)]
    end.
Proof.
  intros Hidle.
  assert (Hrun : exists shown : list St.call,
            script env {| FOLIUM_AVAILABLE := folium; city := "";
                          map_data := map_value |} s =
            (display env ;; st St.sidebar_title ;; st St.sidebar_info)
              {| location_data := location_data s;
                 calls := calls s ++ shown;
                 requests := requests s |}).
  { destruct (script_unfold env {| FOLIUM_AVAILABLE := folium; city := "";
                                   map_data := map_value |} s) as [shown ->].
    cbn [city FOLIUM_AVAILABLE map_data].
    change (search_tab env "") with (@ret unit tt).
    unfold bind at 1, ret at 1. unfold bind at 1.
    assert (Hmap : exists shown',
              yields (map_tab folium map_value) (Ok tt) shown' []).
    { destruct Hidle as [-> | Hno].
      - eexists. apply map_tab_no_folium.
      - destruct folium.
        + eexists. now apply map_tab_no_click.
        + eexists. apply map_tab_no_folium. }
    destruct Hmap as [shown' Hmap]. rewrite Hmap.
    cbn [location_data calls requests].
    exists (shown ++ shown')%list. now rewrite app_nil_r, app_assoc. }
  destruct Hrun as [shown Hrun]. cbn zeta. rewrite Hrun.
  match goal with
  | |- context [snd (bind (display env) ?k ?s1)] =>
      destruct (script_tail env s1) as [Hslot Hsent];
      pose proof (display_frame env s1) as Hframe;
      pose proof (display_no_location env s1) as Hnone
  end.
  cbn zeta in Hslot, Hsent. cbn [location_data requests] in *.
  split; [exact Hslot|]. rewrite Hsent.
  destruct (location_data s) as [loc|].
  - destruct (Hframe loc eq_refl) as (r & shown2 & sent & -> & Hcase).
    exists (forecast_current (latitude loc) (longitude loc) :: sent).
    split; [reflexivity|].
    destruct Hcase as [-> | ->]; [now left|now right].
  - rewrite (Hnone eq_refl). exists []. split; [|reflexivity].
    cbn [snd requests]. now rewrite app_nil_r.
Qed.

Lemma script_idle_run_witness :
  let s' := snd (script all_up {| FOLIUM_AVAILABLE := true;
                                  city := "";
                                  map_data := JNull |} (resolved paris)) in
  location_data s' = Some paris /\
  exists sent : list request,
    requests s' = ([] ++ sent)%list /\
    (sent = [forecast_current (latitude paris) (longitude paris)] \/
     sent = [forecast_current (latitude paris) (longitude paris);
             forecast_daily (latitude paris) (longitude paris)]).
Proof.
  refine (script_idle_run all_up true JNull (resolved paris) _).
  right. left. reflexivity.
Defined.

Lemma map_tab_stores_click (fields last_clicked : list (string * json))
    (lat lon : float) (s : app_state) :
  Py.assoc "last_clicked" fields = Some (JObj last_clicked) ->
  Py.assoc "lat" last_clicked = Some (JFloat lat) ->
  Py.assoc "lng" last_clicked = Some (JFloat lon) ->
  map_tab true (JObj fields) s =
  (Ok tt,
   {| location_data := Some (clicked_location lat lon);
      calls := calls s ++
        [St.write "Click on the map to select a location:";
         St.success [Lit "Selected location: ";
                     Fmt (name (clicked_location lat lon))]];
      requests := requests s |}).
Proof.
  intros Hlast Hlat Hlon.
  unfold map_tab, bind, st, lift, ret, set_location_data, clicked_location.
  rewrite (truthy_obj _ _ _ Hlast). cbn -[Py.truthy Py.assoc].
  rewrite Hlast. cbn -[Py.truthy Py.assoc].
  rewrite (truthy_obj _ _ _ Hlat), Hlat, Hlon. cbn.
  now rewrite <- app_assoc.
Qed.

(** Whether the search tab returns or raises does not depend on the
    session. *)
Lemma search_tab_result_uniform (env : environment) (city : string) :
  exists r, forall s, fst (search_tab env city s) = r.
Proof.
  unfold search_tab. destruct (String.eqb city ""); cbn [negb].
  - exists (Ok tt). reflexivity.
  - destruct (get_location_coordinates_outcome env city)
      as [(data & r & _ & Hy) | (e & _ & Hy)].
    + destruct r as [[loc|]|e].
      * exists (Ok tt). intros s. unfold bind at 1. now rewrite Hy.
      * exists (Ok tt). intros s. unfold bind at 1. now rewrite Hy.
      * exists (Raise e). intros s. unfold bind at 1. now rewrite Hy.
    + exists (Ok tt). intros s. unfold bind at 1. now rewrite Hy.
Qed.

(** X14. When a run has both a query in the text input and a click on the
    map, the click wins: provided the search tab does not raise, the run
    ends with the session slot holding the clicked location, whatever the
    geocoder found and whatever the weather requests answer. *)
Theorem script_click_overrides_search
    (env : environment) (query : string)
    (fields last_clicked : list (string * json)) (lat lon : float)
    (s : app_state) :
  Py.assoc "last_clicked" fields = Some (JObj last_clicked) ->
  Py.assoc "lat" last_clicked = Some (JFloat lat) ->
  Py.assoc "lng" last_clicked = Some (JFloat lon) ->
  fst (search_tab env query s) = Ok tt ->
  location_data
    (snd (script env {| FOLIUM_AVAILABLE := true;
                        city := query;
                        map_data := JObj fields |} s))
  = Some (clicked_location lat lon).
Proof.
  intros Hlast Hlat Hlon Hsearch.
  destruct (script_unfold env {| FOLIUM_AVAILABLE := true; city := query;
                                 map_data := JObj fields |} s) as [shown ->].
  cbn [city FOLIUM_AVAILABLE map_data].
  unfold bind at 1.
  destruct (search_tab_result_uniform env query) as [r0 Hr].
  rewrite Hr in Hsearch. subst r0.
  match goal with
  | |- context [search_tab env query ?s1] =>
      specialize (Hr s1); destruct (search_tab env query s1) as [r s2]
  end.
  cbn [fst] in Hr. subst r.
  unfold bind at 1.
  rewrite (map_tab_stores_click fields last_clicked lat lon s2 Hlast Hlat Hlon).
  match goal with
  | |- context [snd (bind (display env) ?k ?s3)] =>
      destruct (script_tail env s3) as [Hslot _]
  end.
  cbn zeta in Hslot. exact Hslot.
Qed.

Lemma script_click_overrides_search_witness :
  location_data
    (snd (script all_up
            {| FOLIUM_AVAILABLE := true;
               city := "London";
               map_data := click 0x1.9c0f27bb2fec5p+5 (-0x1.05bc01a36e2ebp-3) |}
            fresh))
  = Some (clicked_location 0x1.9c0f27bb2fec5p+5 (-0x1.05bc01a36e2ebp-3)).
Proof.
  exact (script_click_overrides_search all_up "London"
           [("last_clicked",
             JObj [("lat", JFloat 0x1.9c0f27bb2fec5p+5);
                   ("lng", JFloat (-0x1.05bc01a36e2ebp-3))])]
           [("lat", JFloat 0x1.9c0f27bb2fec5p+5);
            ("lng", JFloat (-0x1.05bc01a36e2ebp-3))]
           0x1.9c0f27bb2fec5p+5 (-0x1.05bc01a36e2ebp-3) fresh
           eq_refl eq_refl eq_refl eq_refl).
Defined.

Example script_click_and_search_requests :
  requests
    (snd (script all_up
            {| FOLIUM_AVAILABLE := true;
               city := "London";
               map_data := click 0x1.9c0f27bb2fec5p+5 (-0x1.05bc01a36e2ebp-3) |}
            fresh))
  = [ geocoding_search "London";
      forecast_current (JFloat 0x1.9c0f27bb2fec5p+5)
        (JFloat (-0x1.05bc01a36e2ebp-3));
      forecast_daily (JFloat 0x1.9c0f27bb2fec5p+5)
        (JFloat (-0x1.05bc01a36e2ebp-3)) ].
Proof. vm_compute. reflexivity. Qed.

(* ------------------------------------------------------------------ *)
(** ** The four decimals of a clicked coordinate *)

Lemma div_half_even_nearest (num den : Z) :
  0 < den -> 0 <= num ->
  let q := Format.div_half_even num den in
  2 * Z.abs (q * den - num) <= den /\
  (2 * Z.abs (q * den - num) = den -> Z.even q = true).
Proof.
  intros Hden Hnum. unfold Format.div_half_even. cbn zeta.
  pose proof (Z.div_mod num den ltac:(lia)) as Hdm.
  pose proof (Z.mod_pos_bound num den Hden) as Hr.
  set (q0 := num / den) in *. set (r := num mod den) in *.
  destruct ((den <? 2 * r) || ((2 * r =? den) && Z.odd q0)) eqn:Hup.
  - assert (Hcase : den < 2 * r \/ (2 * r = den /\ Z.odd q0 = true)).
    { apply orb_prop in Hup as [H|H].
      - left. now apply Z.ltb_lt.
      - right. apply andb_prop in H as [H1 H2]. apply Z.eqb_eq in H1.
        now split. }
    split.
    + nia.
    + intros Htie. rewrite Z.even_add. cbn.
      destruct Hcase as [Hlt | [_ Hodd]]; [nia|].
      rewrite <- Z.negb_odd, Hodd. reflexivity.
  - apply orb_false_elim in Hup as [Hlt Htieodd].
    apply Z.ltb_ge in Hlt. split.
    + nia.
    + intros Htie.
      assert (H2r : 2 * r = den) by nia.
      apply Z.eqb_eq in H2r. rewrite H2r in Htieodd. cbn in Htieodd.
      now rewrite <- Z.negb_odd, Htieodd.
Qed.

(** The count of ten-thousandths is the nearest to [m * 2^e * 10^4], ties
    to even, and exact for a whole number. *)
Lemma ten_thousandths_nearest (m : positive) (e : Z) :
  let q := Format.ten_thousandths m e in
  (e < 0 ->
   2 * Z.abs (q * 2 ^ (- e) - Z.pos m * 10000) <= 2 ^ (- e) /\
   (2 * Z.abs (q * 2 ^ (- e) - Z.pos m * 10000) = 2 ^ (- e) ->
    Z.even q = true)) /\
  (0 <= e -> q = Z.pos m * 2 ^ e * 10000).
Proof.
  cbn zeta. unfold Format.ten_thousandths. split.
  - intros He. destruct (Z.leb_spec 0 e) as [Hge|_]; [lia|].
    apply div_half_even_nearest; [|lia].
    apply Z.pow_pos_nonneg; lia.
  - intros He. destruct (Z.leb_spec 0 e) as [_|Hlt]; [reflexivity|lia].
Qed.

Lemma ten_thousandths_nonneg (m : positive) (e : Z) :
  0 <= Format.ten_thousandths m e.
Proof.
  unfold Format.ten_thousandths, Format.div_half_even.
  destruct (Z.leb_spec 0 e).
  - assert (0 <= 2 ^ e) by (apply Z.pow_nonneg; lia). nia.
  - assert (0 <= Z.pos m * 10000 / 2 ^ (- e))
      by (apply Z.div_pos; [lia|apply Z.pow_pos_nonneg; lia]).
    destruct (_ || _); lia.
Qed.

Lemma length_append_str (a b : string) :
  String.length (a ++ b) = (String.length a + String.length b)%nat.
Proof. induction a as [|c a IH]; cbn; [reflexivity|now rewrite IH]. Qed.

Lemma substring_head_app (a b : string) :
  substring 0 (String.length a) (a ++ b) = a.
Proof.
  induction a as [|c a IH]; cbn.
  - now destruct b.
  - now rewrite IH.
Qed.

Lemma substring_skip_app (a b : string) (k n : nat) :
  substring (String.length a + k) n (a ++ b) = substring k n b.
Proof. induction a as [|c a IH]; cbn; [reflexivity|exact IH]. Qed.

(** The whole part is printed without a sign and reads back as itself. *)
Lemma decimal_read (n : Z) :
  0 <= n ->
  (exists c rest,
     Format.decimal n = String c rest /\ Ascii.eqb c "-" = false) /\
  exists u,
    NilZero.uint_of_string (Format.decimal n) = Some u /\
    Z.of_N (N.of_uint u) = n.
Proof.
  intros Hn. unfold Format.decimal.
  pose proof (DecimalN.Unsigned.of_to (Z.to_N n)) as Hback.
  split.
  - destruct (N.to_uint (Z.to_N n)); cbn; eexists; eexists;
      (split; [reflexivity|reflexivity]).
  - destruct (N.to_uint (Z.to_N n)) as [| | | | | | | | | |] eqn:Hu.
    1: { exists (Decimal.D0 Decimal.Nil). split; [reflexivity|].
         cbn in Hback. cbn. lia. }
    all: eexists; split; [apply NilZero.usu; discriminate|];
      rewrite Hback; lia.
Qed.

Lemma digits4_read (r : Z) :
  0 <= r < 10000 ->
  Dates.number_of (list_ascii_of_string (Format.digits4 r)) 0 = Some r.
Proof.
  intros Hr. unfold Format.digits4.
  cbv beta iota fix delta [list_ascii_of_string Dates.number_of].
  rewrite !digit_value_digit. f_equal.
  Z.div_mod_to_equations. lia.
Qed.

Lemma read_4f_fixed4 (sign : bool) (q : Z) :
  0 <= q ->
  read_4f (Format.minus sign ++ Format.fixed4 q) = Some (sign, q).
Proof.
  intros Hq. unfold Format.fixed4.
  assert (Hwhole : 0 <= q / 10000) by (apply Z.div_pos; lia).
  destruct (decimal_read (q / 10000) Hwhole)
    as [(c & rest & Hhead & Hc) (u & Hu & Hvalue)].
  pose proof (digits4_read (q mod 10000)
                (Z.mod_pos_bound q 10000 ltac:(lia))) as Hfraction.
  set (whole := Format.decimal (q / 10000)) in *.
  set (fraction := Format.digits4 (q mod 10000)) in *.
  assert (Hbody :
    let body := whole ++ "." ++ fraction in
    (if (5 <=? String.length body)%nat &&
        String.eqb (substring (String.length body - 5) 1 body) "."
     then
       match NilZero.uint_of_string
               (substring 0 (String.length body - 5) body),
             Dates.number_of
               (list_ascii_of_string
                  (substring (String.length body - 4) 4 body)) 0 with
       | Some u, Some fr => Some (sign, Z.of_N (N.of_uint u) * 10000 + fr)
       | _, _ => None
       end
     else None) = Some (sign, q)).
  { cbn zeta. rewrite length_append_str.
    change (String.length ("." ++ fraction)) with 5%nat.
    replace (String.length whole + 5 - 5)%nat with (String.length whole)
      by lia.
    replace (String.length whole + 5 - 4)%nat
      with (String.length whole + 1)%nat by lia.
    rewrite substring_head_app.
    rewrite <- (Nat.add_0_r (String.length whole)) at 2.
    rewrite !substring_skip_app.
    destruct (Nat.leb_spec 5 (String.length whole + 5)); [|lia].
    change (substring 0 1 ("." ++ fraction)) with ".".
    change (substring 1 4 ("." ++ fraction)) with fraction.
    change (String.eqb "." ".") with true. cbn [andb].
    rewrite Hu, Hfraction, Hvalue. f_equal. f_equal.
    Z.div_mod_to_equations. lia. }
  cbn zeta in Hbody. unfold read_4f. destruct sign; cbn [Format.minus].
  - change ("-" ++ whole ++ "." ++ fraction)
      with (String "-" (whole ++ "." ++ fraction)).
    cbn [Ascii.eqb Bool.eqb]. exact Hbody.
  - change ("" ++ whole ++ "." ++ fraction) with (whole ++ "." ++ fraction).
    clearbody whole fraction. subst whole.
    change (String c rest ++ "." ++ fraction)
      with (String c (rest ++ "." ++ fraction)) in *.
    cbv beta iota. rewrite Hc. exact Hbody.
Qed.

(** X15. The [.4f] text of a clicked coordinate denotes the multiple of
    0.0001 nearest to the float's exact value [m * 2^e]: read back as a
    decimal numeral, the text has the float's sign and a count [q] of
    ten-thousandths that is within half a unit of [m * 2^e * 10^4], a tie
    going to the even count; a float that is a whole number is printed
    exactly. *)
Theorem float_4f_nearest (f : float) (sign : bool) (m : positive) (e : Z) :
  Prim2SF f = S754_finite sign m e ->
  exists q,
    read_4f (Format.float_4f f) = Some (sign, q) /\
    (e < 0 ->
     2 * Z.abs (q * 2 ^ (- e) - Z.pos m * 10000) <= 2 ^ (- e) /\
     (2 * Z.abs (q * 2 ^ (- e) - Z.pos m * 10000) = 2 ^ (- e) ->
      Z.even q = true)) /\
    (0 <= e -> q = Z.pos m * 2 ^ e * 10000).
Proof.
  intros Hf. exists (Format.ten_thousandths m e). split.
  - unfold Format.float_4f. rewrite Hf. cbn [Format.sf_4f].
    apply read_4f_fixed4, ten_thousandths_nonneg.
  - exact (ten_thousandths_nearest m e).
Qed.

Lemma float_4f_nearest_witness :
  Format.float_4f 0x1.9c0f27bb2fec5p+5 = "51.5074" /\
  read_4f "51.5074" = Some (false, 515074) /\
  2 * Z.abs (515074 * 2 ^ 47 - 7249022107713221 * 10000) <= 2 ^ 47.
Proof.
  destruct (float_4f_nearest 0x1.9c0f27bb2fec5p+5 false
              7249022107713221 (-47) eq_refl)
    as (q & Hread & Hnear & _).
  assert (Htext : Format.float_4f 0x1.9c0f27bb2fec5p+5 = "51.5074")
    by (vm_compute; reflexivity).
  rewrite Htext in Hread.
  assert (Hq : q = 515074)
    by (vm_compute in Hread; now injection Hread as <-).
  subst q. split; [exact Htext|]. split; [exact Hread|].
  exact (proj1 (Hnear ltac:(lia))).
Defined.

Lemma float_4f_four_decimals_witness :
  exists whole decimals,
    Format.float_4f (-0x1.05bc01a36e2ebp-3) = whole ++ "." ++ decimals /\
    String.length decimals = 4%nat /\
    all_digits decimals = true.
Proof.
  apply float_4f_four_decimals. left.
  exists true, 4604480259023595%positive, (-55). vm_compute. reflexivity.
Defined.

(* ------------------------------------------------------------------ *)
(** ** A current-weather block that is not whole *)

(** X17. The display block reads temperature, wind speed and weather code
    from the [current_weather] block in that order and raises [KeyError]
    for the first one that is missing: only the heading has been shown by
    then and the forecast is not requested. An empty block is falsy and is
    reported as "Could not retrieve weather data for this location."
    instead. *)
Theorem display_missing_field
    (env : environment) (s : app_state) (loc : location)
    (fields block : list (string * json)) :
  location_data s = Some loc ->
  env (forecast_current (latitude loc) (longitude loc)) = Body (JObj fields) ->
  Py.assoc "current_weather" fields = Some (JObj block) ->
  let stopped :=
    {| location_data := Some loc;
       calls := calls s ++ [heading_of loc];
       requests := requests s ++
                   [forecast_current (latitude loc) (longitude loc)] |} in
  (block = [] ->
   runs (display env) s tt (Some loc)
     [heading_of loc;
      St.error "Could not retrieve weather data for this location."]
     [forecast_current (latitude loc) (longitude loc)]) /\
  (block <> [] ->
   Py.assoc "temperature" block = None ->
   display env s = (Raise (KeyError (JStr "temperature")), stopped)) /\
  (forall temp,
     Py.assoc "temperature" block = Some temp ->
     Py.assoc "windspeed" block = None ->
     display env s = (Raise (KeyError (JStr "windspeed")), stopped)) /\
  (forall temp wind,
     Py.assoc "temperature" block = Some temp ->
     Py.assoc "windspeed" block = Some wind ->
     Py.assoc "weathercode" block = None ->
     display env s = (Raise (KeyError (JStr "weathercode")), stopped)).
Proof.
  intros Hloc Hnet Hblock stopped. subst stopped. unfold runs.
  assert (Hstart : forall k : json -> M unit,
    bind (get_weather_data env (latitude loc) (longitude loc)) k
      {| location_data := Some loc;
         calls := calls s ++ [heading_of loc];
         requests := requests s |} =
    k (JObj block)
      {| location_data := Some loc;
         calls := calls s ++ [heading_of loc];
         requests := requests s ++
                     [forecast_current (latitude loc) (longitude loc)] |}).
  { intros k. unfold bind at 1.
    rewrite (get_weather_data_block env _ _ _ fields (JObj block) Hnet Hblock).
    cbn [location_data calls requests]. now rewrite !app_nil_r. }
  rewrite (display_unfold env s loc Hloc). fold (heading_of loc).
  rewrite Hstart.
  split; [|split; [|split]].
  - intros ->. cbn [Py.truthy]. rewrite (yields_st _ _).
    cbn [location_data calls requests].
    now rewrite <- !app_assoc.
  - intros Hne Htemp.
    assert (Htruthy : Py.truthy (JObj block) = true)
      by (destruct block; [contradiction|reflexivity]).
    rewrite Htruthy. unfold bind at 1, lift at 1. cbn [Py.getitem].
    now rewrite Htemp.
  - intros temp Htemp Hwind. rewrite (truthy_obj _ _ _ Htemp).
    unfold bind at 1, lift at 1. cbn [Py.getitem]. rewrite Htemp.
    unfold bind at 1, lift at 1. now rewrite Hwind.
  - intros temp wind Htemp Hwind Hcode. rewrite (truthy_obj _ _ _ Htemp).
    unfold bind at 1, lift at 1. cbn [Py.getitem]. rewrite Htemp.
    unfold bind at 1, lift at 1. rewrite Hwind.
    unfold bind at 1, lift at 1. now rewrite Hcode.
Qed.

Lemma display_missing_field_witness :
  display no_code_net (resolved paris) =
  (Raise (KeyError (JStr "weathercode")),
   {| location_data := Some paris;
      calls := [heading_of paris];
      requests := [forecast_current (latitude paris) (longitude paris)] |}).
Proof.
  exact (proj2 (proj2 (proj2 (display_missing_field no_code_net
           (resolved paris) paris
           [("current_weather", no_code_block)]
           [ ("temperature", JFloat 0x1.e666666666666p+3);
             ("windspeed", JFloat 0x1.4p+3) ]
           eq_refl eq_refl eq_refl)))
           (JFloat 0x1.e666666666666p+3) (JFloat 0x1.4p+3)
           eq_refl eq_refl eq_refl).
Defined.
